(** * langchain-chatbot: the environment verifier and the chat loop

    A shallow embedding of [test_setup.py] and [chatbot.py].

    Python [str] values are modelled as lists of characters.  A character is a
    code point below 256, carried by [ascii]; [len], slicing, [strip] and
    [lower] follow Python on that range.  Fixed texts of the scripts are
    written as string literals and turned into character lists by [lit].
    Python [int]s are unbounded: [Z] where a value may be negative (the
    repeat count of the mask), [nat] for counts and version fields. *)

From Stdlib Require Import String Ascii List ZArith Lia Bool Arith.
From Stdlib Require Import DecimalString.
Import ListNotations.

Local Open Scope Z_scope.

(** ** Python strings *)

Module PyStr.

Definition str := list ascii.

Definition lit (s : string) : str := list_ascii_of_string s.

(** [len(s)] *)
Definition len (s : str) : Z := Z.of_nat (length s).

(** Normalisation of a slice bound: a negative bound counts from the end,
    and the result is clamped to [0 .. len(s)]. *)
Definition slice_bound (s : str) (i : Z) : nat :=
  let j := if i <? 0 then i + len s else i in
  Z.to_nat (Z.max 0 (Z.min j (len s))).

(** [s[:j]] *)
Definition slice_to (s : str) (j : Z) : str := firstn (slice_bound s j) s.

(** [s[i:]] *)
Definition slice_from (s : str) (i : Z) : str := skipn (slice_bound s i) s.

(** [s * n]: the empty string when [n <= 0]. *)
Definition str_mul (s : str) (n : Z) : str := concat (repeat s (Z.to_nat n)).

(** [str(n)] for a non-negative integer. *)
Definition str_of_nat (n : nat) : str :=
  lit (NilZero.string_of_uint (Nat.to_uint n)).

(** The newline character. *)
Definition nl : str := ["010"%char].

(** [c.isspace()] on code points below 256: TAB, LF, VT, FF, CR, the four
    separators FS, GS, RS, US, the space, NEL and the no-break space. *)
Definition isspace (c : ascii) : bool :=
  let n := nat_of_ascii c in
  ((9 <=? n) && (n <=? 13) || (28 <=? n) && (n <=? 32)
   || (n =? 133) || (n =? 160))%nat.

(** [c.lower()] on code points below 256: A-Z and the Latin-1 capitals
    (all of 0xC0-0xDE but the multiplication sign) move up by 32. *)
Definition lower_char (c : ascii) : ascii :=
  let n := nat_of_ascii c in
  if ((65 <=? n) && (n <=? 90)
      || (192 <=? n) && (n <=? 222) && negb (n =? 215))%nat
  then ascii_of_nat (n + 32) else c.

(** [s.lower()] *)
Definition lower (s : str) : str := map lower_char s.

(** [s.lstrip()] *)
Fixpoint lstrip (s : str) : str :=
  match s with
  | [] => []
  | c :: rest => if isspace c then lstrip rest else s
  end.

(** [s.rstrip()] *)
Definition rstrip (s : str) : str := rev (lstrip (rev s)).

(** [s.strip()] *)
Definition strip (s : str) : str := rstrip (lstrip s).

(** Equality test on strings, [s == t]. *)
Fixpoint str_eqb (s t : str) : bool :=
  match s, t with
  | [], [] => true
  | c :: s', d :: t' => Ascii.eqb c d && str_eqb s' t'
  | _, _ => false
  end.

(** Truthiness of an object that is [None] or a string: [None] and the
    empty string are false. *)
Definition truthy (o : option str) : bool :=
  match o with
  | Some (_ :: _) => true
  | _ => false
  end.

End PyStr.

Import PyStr.

(** ** Effects

    Both scripts are sequential programs that print, read the terminal and
    call the provider's library.  A computation returns its value together
    with the events it performed, in order. *)

Module Effects.

Inductive event :=
| Printed (s : str)                      (* print(s): s, then a newline *)
| Asked (s : str)                        (* input(s): the prompt s is shown *)
| LoadDotenv                             (* load_dotenv() *)
| TryImport (package : str)              (* an import statement is executed *)
| CallChatOpenAI (model api_key : str)   (* the client constructor is called *)
| Invoke (prompt_text : str).            (* the remote model is called *)

Definition M (A : Type) : Type := (A * list event)%type.

Definition ret {A} (a : A) : M A := (a, []).

Definition bind {A B} (c : M A) (k : A -> M B) : M B :=
  let '(a, t1) := c in
  let '(b, t2) := k a in
  (b, t1 ++ t2).

Definition emit (ev : event) : M unit := (tt, [ev]).

Definition print (s : str) : M unit := emit (Printed s).

Definition value {A} (c : M A) : A := fst c.

Definition events {A} (c : M A) : list event := snd c.

(** A computation that a raise may leave: its value is what was raised or
    what it returns, and its events are those performed until then. *)
Definition X (E A : Type) : Type := M (E + A).

Definition xret {E A} (a : A) : X E A := (inr a, []).

Definition throw {E A} (x : E) : X E A := (inl x, []).

Definition xbind {E A B} (c : X E A) (k : A -> X E B) : X E B :=
  let '(r, t1) := c in
  match r with
  | inl x => (inl x, t1)
  | inr a => let '(b, t2) := k a in (b, t1 ++ t2)
  end.

(** A computation that raises nothing, among those that may. *)
Definition lift {E A} (c : M A) : X E A :=
  let '(a, t) := c in (inr a, t).

End Effects.

Import Effects.

Declare Scope effects_scope.
Delimit Scope effects_scope with effects.

Notation "x <- c ;; k" := (bind c (fun x => k))
  (at level 61, c at next level, right associativity) : effects_scope.
Notation "c ;; k" := (bind c (fun _ => k))
  (at level 61, right associativity) : effects_scope.

Declare Scope raising_scope.
Delimit Scope raising_scope with raising.

Notation "x <- c ;; k" := (xbind c (fun x => k))
  (at level 61, c at next level, right associativity) : raising_scope.
Notation "c ;; k" := (xbind c (fun _ => k))
  (at level 61, right associativity) : raising_scope.

(** ** test_setup.py *)

Module Verifier.

Local Open Scope effects_scope.
Local Open Scope list_scope.

(** [sys.version_info] *)
Record version_info := { major : nat; minor : nat; micro : nat }.

(** What an import can raise, as far as the handlers of the script tell
    apart: an [ImportError] (or a subclass of it, as [ModuleNotFoundError]),
    an [Exception] of another class, and a [BaseException] that is not an
    [Exception] ([SystemExit], [KeyboardInterrupt]); each with its text. *)
Inductive raised :=
| ImportError (text : str)
| OtherException (text : str)
| NonException (text : str).

(** What the script observes of its surroundings. *)
Record env := {
  (** [sys.version_info] *)
  sys_version_info : version_info;
  (** importing a package: [None] when it succeeds, [Some x] when it
      raises [x] *)
  import_raises : str -> option raised;
  (** [os.getenv("OPENAI_API_KEY")] once [load_dotenv()] has run *)
  OPENAI_API_KEY : option str;
  (** [ChatOpenAI(model="gpt-3.5-turbo", api_key=k)]: [None] when the client
      is constructed, [Some msg] when the constructor raises an exception
      whose text is [msg] *)
  ChatOpenAI_error : str -> option str
}.

Definition test_python_version (e : env) : M bool :=
  print (lit "🔍 Checking Python Version...") ;;
  let version := sys_version_info e in
  if ((major version =? 3) && (9 <=? minor version))%nat then
    print (lit "   ✅ Python " ++ str_of_nat (major version) ++ lit "."
           ++ str_of_nat (minor version) ++ lit "."
           ++ str_of_nat (micro version) ++ lit " (Good!)" ++ nl) ;;
    ret true
  else
    print (lit "   ❌ Python " ++ str_of_nat (major version) ++ lit "."
           ++ str_of_nat (minor version) ++ lit " (Need 3.9+)" ++ nl) ;;
    ret false.

Definition required_packages : list (str * str) :=
  [ (lit "langchain", lit "LangChain");
    (lit "langchain_openai", lit "LangChain OpenAI");
    (lit "dotenv", lit "Python Dotenv");
    (lit "openai", lit "OpenAI SDK") ].

(** The [for] loop of [test_imports], with the running value of
    [all_good].  The handler takes [ImportError] alone: any other raise of
    an import leaves the loop and the function. *)
Fixpoint import_each (e : env) (packages : list (str * str)) (all_good : bool)
  : X raised bool :=
  (match packages with
   | [] => xret all_good
   | (package, name) :: rest =>
       lift (emit (TryImport package)) ;;
       match import_raises e package with
       | None =>
           lift (print (lit "   ✅ " ++ name)) ;;
           import_each e rest all_good
       | Some (ImportError _) =>
           lift (print (lit "   ❌ " ++ name ++ lit " (Not installed)")) ;;
           import_each e rest false
       | Some x => throw x
       end
   end)%raising.

Definition test_imports (e : env) : X raised bool :=
  (lift (print (lit "🔍 Checking Required Packages...")) ;;
   all_good <- import_each e required_packages true ;;
   lift (print []) ;;
   xret all_good)%raising.

(** The mask character. *)
Definition star : ascii := "*"%char.

(** [api_key[:8] + "*" * (len(api_key) - 12) + api_key[-4:]] *)
Definition masked_key (api_key : str) : str :=
  (slice_to api_key 8 ++ str_mul (lit "*") (len api_key - 12))
  ++ slice_from api_key (-4).

Definition test_api_key (e : env) : M bool :=
  print (lit "🔍 Checking API Key Configuration...") ;;
  emit LoadDotenv ;;
  let api_key := OPENAI_API_KEY e in
  match api_key with
  | Some (c :: k) =>
      print (lit "   ✅ API Key Found: " ++ masked_key (c :: k) ++ nl) ;;
      ret true
  | _ =>
      print (lit "   ❌ API Key Not Found") ;;
      print (lit "      → Create a .env file in this directory") ;;
      print (lit "      → Add: OPENAI_API_KEY=your_key_here") ;;
      print (lit "      → Get a key at: https://platform.openai.com/api-keys"
             ++ nl) ;;
      ret false
  end.

(** The result is [None] when the check is skipped.  The [try] block
    holds the import, the credential test and the constructor call; its
    handler takes every [Exception]. *)
Definition test_api_connection (e : env) : X raised (option bool) :=
  (lift (print (lit "🔍 Testing OpenAI API Connection...")) ;;
   lift (emit (TryImport (lit "langchain_openai"))) ;;
   match import_raises e (lit "langchain_openai") with
   | Some (NonException text) => throw (NonException text)
   | Some (ImportError msg) | Some (OtherException msg) =>
       lift (print (lit "   ❌ Connection Failed: " ++ msg ++ nl)) ;;
       xret (Some false)
   | None =>
       match OPENAI_API_KEY e with
       | Some (c :: k) =>
           lift (emit (CallChatOpenAI (lit "gpt-3.5-turbo") (c :: k))) ;;
           match ChatOpenAI_error e (c :: k) with
           | None =>
               lift (print (lit "   ✅ OpenAI API Connection Successful"
                            ++ nl)) ;;
               xret (Some true)
           | Some msg =>
               lift (print (lit "   ❌ Connection Failed: " ++ msg ++ nl)) ;;
               xret (Some false)
           end
       | _ =>
           lift (print
                   (lit "   ⚠️  API Key not available, skipping connection test"
                    ++ nl)) ;;
           xret None
       end
   end)%raising.

(** The checks of [main], in order, and the list [results] they leave. *)
Definition run_tests (e : env) : X raised (list (str * bool)) :=
  (let results := [] in
   r <- lift (test_python_version e) ;;
   let results := results ++ [(lit "Python Version", r)] in
   r <- test_imports e ;;
   let results := results ++ [(lit "Dependencies", r)] in
   r <- lift (test_api_key e) ;;
   let results := results ++ [(lit "API Key", r)] in
   api_test <- test_api_connection e ;;
   match api_test with
   | Some r => xret (results ++ [(lit "API Connection", r)])
   | None => xret results
   end)%raising.

(** [sum(1 for _, result in results if result)] *)
Definition passed_of (results : list (str * bool)) : nat :=
  list_sum (map (fun _ => 1%nat) (filter (fun p => snd p) results)).

(** [len(results)] *)
Definition total_of (results : list (str * bool)) : nat := length results.

Fixpoint print_results (results : list (str * bool)) : M unit :=
  match results with
  | [] => ret tt
  | (test_name, result) :: rest =>
      let status := if result then lit "✅ PASS" else lit "❌ FAIL" in
      print (test_name ++ lit ": " ++ status) ;;
      print_results rest
  end.

Definition total_line (passed total : nat) : str :=
  nl ++ lit "Total: " ++ str_of_nat passed ++ lit "/" ++ str_of_nat total
  ++ lit " tests passed" ++ nl.

Definition success_banner : str :=
  lit "🎉 All systems go! You're ready to run chatbot.py".

(** The summary part of [main]. *)
Definition summary (results : list (str * bool)) : M unit :=
  print (str_mul (lit "=") 60) ;;
  print (lit "Summary") ;;
  print (str_mul (lit "=") 60) ;;
  let passed := passed_of results in
  let total := total_of results in
  print_results results ;;
  print (total_line passed total) ;;
  if (passed =? total)%nat then
    print success_banner ;;
    print (nl ++ lit "Run: python chatbot.py" ++ nl)
  else
    print (lit "⚠️  Some tests failed. See above for details." ++ nl).

Definition main (e : env) : X raised unit :=
  (lift (print (nl ++ str_mul (lit "=") 60)) ;;
   lift (print (lit "LangChain Setup Verification")) ;;
   lift (print (str_mul (lit "=") 60 ++ nl)) ;;
   results <- run_tests e ;;
   lift (summary results))%raising.

End Verifier.

(** ** chatbot.py *)

Module Chat.

Local Open Scope list_scope.

(** What a call can raise, as far as the handlers of the loop tell apart:
    [KeyboardInterrupt], an instance of [Exception] with its text, and any
    other [BaseException] ([SystemExit], [GeneratorExit]). *)
Inductive raised :=
| KeyboardInterrupt
| PyException (text : str)
| OtherBaseException (text : str).

(** One call of [input("You: ")]: a line, without its newline, or a raise
    (the operator's interrupt, [EOFError] at the end of the input). *)
Inductive input_event :=
| InLine (line : str)
| InRaise (r : raised).

(** What the provider does when the model is invoked. *)
Inductive remote_result :=
| Reply (text : str)
| Raises (r : raised).

(** *** The prompt template *)

Inductive piece :=
| Text (s : str)
| Field (name : str).

Inductive scan_mode :=
| InText (seen : str)
| InField (seen : str).

(** Splits a template at its [{name}] replacement fields.  [None] on a
    field that is not closed.  (Doubled braces, which the source's template
    does not contain, are not treated.) *)
Fixpoint scan (s : str) (m : scan_mode) : option (list piece) :=
  match s, m with
  | [], InText [] => Some []
  | [], InText seen => Some [Text seen]
  | [], InField _ => None
  | c :: rest, InText seen =>
      if Ascii.eqb c "{" then
        match scan rest (InField []) with
        | Some ps => Some (match seen with [] => ps | _ => Text seen :: ps end)
        | None => None
        end
      else scan rest (InText (seen ++ [c]))
  | c :: rest, InField seen =>
      if Ascii.eqb c "}" then
        match scan rest (InText []) with
        | Some ps => Some (Field seen :: ps)
        | None => None
        end
      else scan rest (InField (seen ++ [c]))
  end.

Definition from_template (text : str) : option (list piece) :=
  scan text (InText []).

Definition template_text : str := lit
"You are a helpful, friendly customer support agent for a tech company.
Your role is to:
- Answer questions about products and services
- Help with troubleshooting
- Be empathetic and professional
- Keep responses concise but helpful

{input}".

(** [prompt = ChatPromptTemplate.from_template(...)] *)
Definition prompt : option (list piece) := from_template template_text.

(** The names of the template's replacement fields. *)
Fixpoint input_variables (ps : list piece) : list str :=
  match ps with
  | [] => []
  | Text _ :: rest => input_variables rest
  | Field name :: rest => name :: input_variables rest
  end.

Fixpoint lookup (name : str) (inputs : list (str * str)) : option str :=
  match inputs with
  | [] => None
  | (k, v) :: rest => if str_eqb k name then Some v else lookup name rest
  end.

(** Formatting: each field is replaced by the input of its name; [None]
    when an input is missing. *)
Fixpoint format (ps : list piece) (inputs : list (str * str)) : option str :=
  match ps with
  | [] => Some []
  | Text s :: rest =>
      match format rest inputs with
      | Some tail => Some (s ++ tail)
      | None => None
      end
  | Field name :: rest =>
      match lookup name inputs, format rest inputs with
      | Some v, Some tail => Some (v ++ tail)
      | _, _ => None
      end
  end.

(** *** The conversation memory *)

Inductive role := Human | AI.

Definition message := (role * str)%type.

Definition history := list message.

(** [human_prefix="Customer"], [ai_prefix="Support Agent"] *)
Definition prefix (r : role) : str :=
  match r with
  | Human => lit "Customer"
  | AI => lit "Support Agent"
  end.

(** The buffer as the memory hands it to the chain under the key
    [chat_history]: one line per message, [prefix: text]. *)
Fixpoint buffer_string (h : history) : str :=
  match h with
  | [] => []
  | [(r, text)] => prefix r ++ lit ": " ++ text
  | (r, text) :: rest => prefix r ++ lit ": " ++ text ++ nl ++ buffer_string rest
  end.

(** *** The chain *)

(** The result of a call that may raise, with the memory it leaves and the
    events it performed. *)
Record ran (A : Type) := Ran {
  result : raised + A;
  memory_after : history;
  performed : list event
}.

Arguments Ran {A} _ _ _.
Arguments result {A} _.
Arguments memory_after {A} _.
Arguments performed {A} _.

(** [chain.run(input=user_input)]: the memory's variables are added to the
    inputs, the prompt is formatted from the inputs its fields name, the
    model is invoked, and on a reply the exchange is saved to the memory
    (the user message, then the reply).  A raise leaves the memory as it
    was. *)
Definition chain_run (memory : history) (user_input : str)
  (remote : remote_result) : ran str :=
  let inputs := [(lit "input", user_input);
                 (lit "chat_history", buffer_string memory)] in
  match prompt with
  | None => Ran (inl (PyException (lit "invalid template"))) memory []
  | Some ps =>
      match format ps inputs with
      | None => Ran (inl (PyException (lit "missing input"))) memory []
      | Some prompt_text =>
          match remote with
          | Reply response =>
              Ran (inr response)
                  (memory ++ [(Human, user_input); (AI, response)])
                  [Invoke prompt_text]
          | Raises r => Ran (inl r) memory [Invoke prompt_text]
          end
      end
  end.

(** *** The loop *)

(** How the body of the [while] loop is left. *)
Inductive flow :=
| Continue                    (* next iteration *)
| Break                       (* the loop ends *)
| Propagate (r : raised).     (* a raise no handler takes leaves the function *)

Record outcome := Outcome {
  ctl : flow;
  memory_of : history;
  trace : list event
}.

Definition exit_farewell : str :=
  nl ++ lit "Thank you for using our support! Goodbye! 👋".

Definition interrupt_farewell : str :=
  nl ++ nl ++ lit "Chatbot interrupted. Goodbye!".

Definition empty_notice : str := lit "Please enter a message." ++ nl.

Definition thinking : str := nl ++ lit "⏳ Thinking..." ++ nl.

Definition reply_line (response : str) : str :=
  lit "Support Agent: " ++ response ++ nl.

Definition error_line (e : str) : str := nl ++ lit "❌ Error: " ++ e.

Definition advice_line : str :=
  lit "Please check your API key and try again." ++ nl.

(** The [try] block of the loop body. *)
Definition try_block (memory : history) (i : input_event)
  (remote : remote_result) : ran flow :=
  match i with
  | InRaise r => Ran (inl r) memory [Asked (lit "You: ")]
  | InLine line =>
      let user_input := strip line in
      if str_eqb (lower user_input) (lit "exit") then
        Ran (inr Break) memory [Asked (lit "You: "); Printed exit_farewell]
      else if negb (truthy (Some user_input)) then
        Ran (inr Continue) memory [Asked (lit "You: "); Printed empty_notice]
      else
        let r := chain_run memory user_input remote in
        match result r with
        | inl x =>
            Ran (inl x) (memory_after r)
                ([Asked (lit "You: "); Printed thinking] ++ performed r)
        | inr response =>
            Ran (inr Continue) (memory_after r)
                ([Asked (lit "You: "); Printed thinking] ++ performed r
                 ++ [Printed (reply_line response)])
        end
  end.

(** One iteration: the [try] block and its two handlers. *)
Definition iteration (memory : history) (i : input_event)
  (remote : remote_result) : outcome :=
  let r := try_block memory i remote in
  match result r with
  | inr f => Outcome f (memory_after r) (performed r)
  | inl KeyboardInterrupt =>
      Outcome Break (memory_after r)
              (performed r ++ [Printed interrupt_farewell])
  | inl (PyException e) =>
      Outcome Continue (memory_after r)
              (performed r ++ [Printed (error_line e); Printed advice_line])
  | inl (OtherBaseException e) =>
      Outcome (Propagate (OtherBaseException e)) (memory_after r) (performed r)
  end.

(** The two states of the loop, and the abnormal end by a raise that
    leaves [run_chatbot]. *)
Inductive status :=
| awaiting_input
| terminated
| crashed (r : raised).

Record run := Run {
  state : status;
  final_memory : history;
  output : list event
}.

(** The [while True] loop over a script: what each call of [input] gives and
    what the provider does if the model is invoked in that iteration.  At
    the end of the script the loop is waiting for input. *)
Fixpoint loop (memory : history) (script : list (input_event * remote_result))
  : run :=
  match script with
  | [] => Run awaiting_input memory []
  | (i, remote) :: rest =>
      let o := iteration memory i remote in
      match ctl o with
      | Continue =>
          let r := loop (memory_of o) rest in
          Run (state r) (final_memory r) (trace o ++ output r)
      | Break => Run terminated (memory_of o) (trace o)
      | Propagate x => Run (crashed x) (memory_of o) (trace o)
      end
  end.

Definition welcome : list event :=
  [ Printed (nl ++ str_mul (lit "=") 60);
    Printed (lit "🤖 LangChain Customer Support Chatbot");
    Printed (str_mul (lit "=") 60);
    Printed (lit "Welcome! I'm here to help. Type 'exit' to quit." ++ nl) ].

(** [run_chatbot()], from the memory as the module left it. *)
Definition run_chatbot (memory : history)
  (script : list (input_event * remote_result)) : run :=
  let r := loop memory script in
  Run (state r) (final_memory r) (welcome ++ output r).

(** The prompts sent to the remote model in a trace. *)
Fixpoint invocations (t : list event) : list str :=
  match t with
  | [] => []
  | Invoke p :: rest => p :: invocations rest
  | _ :: rest => invocations rest
  end.

(** A line that is empty or holds only whitespace. *)
Definition blank (line : str) : bool := forallb isspace line.

(** The trimmed line is the exit keyword, whatever its case. *)
Definition is_exit (line : str) : bool :=
  str_eqb (lower (strip line)) (lit "exit").

End Chat.

(** ** Observations and sample inputs for the statements *)


(** The event is a call of the client constructor. *)
Definition is_client_call (ev : event) : bool :=
  match ev with
  | CallChatOpenAI _ _ => true
  | _ => false
  end.

(** The event is the print of the success banner. *)
Definition is_success_banner (ev : event) : bool :=
  match ev with
  | Printed s => str_eqb s Verifier.success_banner
  | _ => false
  end.

(** The number of checks that returned true among four outcomes, the last
    of which may be skipped. *)
Definition count_true (r1 r2 r3 : bool) (r4 : option bool) : nat :=
  (Nat.b2n r1 + Nat.b2n r2 + Nat.b2n r3
   + match r4 with Some true => 1 | _ => 0 end)%nat.

(** The number of checks executed. *)
Definition count_executed (r4 : option bool) : nat :=
  (3 + match r4 with Some _ => 1 | None => 0 end)%nat.


(** No credential, and of the four packages only [dotenv], which the
    script itself imports, installed. *)
Definition env_bare : Verifier.env :=
  {| Verifier.sys_version_info :=
       {| Verifier.major := 3; Verifier.minor := 11; Verifier.micro := 4 |};
     Verifier.import_raises := fun p =>
       if str_eqb p (lit "dotenv") then None
       else Some (Verifier.ImportError
                    (lit "No module named '" ++ p ++ lit "'"));
     Verifier.OPENAI_API_KEY := None;
     Verifier.ChatOpenAI_error := fun _ => None |}.

(** No credential, all packages installed. *)
Definition env_no_key : Verifier.env :=
  {| Verifier.sys_version_info :=
       {| Verifier.major := 3; Verifier.minor := 11; Verifier.micro := 4 |};
     Verifier.import_raises := fun _ => None;
     Verifier.OPENAI_API_KEY := None;
     Verifier.ChatOpenAI_error := fun _ => None |}.

(** The fixed instructional text of the template, up to its field. *)
Definition instructions : str := lit
"You are a helpful, friendly customer support agent for a tech company.
Your role is to:
- Answer questions about products and services
- Help with troubleshooting
- Be empathetic and professional
- Keep responses concise but helpful

".

(** The fixed template with [text] put in its field. *)
Definition fill_template (text : str) : option str :=
  match Chat.prompt with
  | Some ps => Chat.format ps [(lit "input", text)]
  | None => None
  end.

(** The start of every iteration that reaches the chain. *)
Definition exchange_prefix (user_input : str) : list event :=
  [ Asked (lit "You: "); Printed Chat.thinking;
    Invoke (instructions ++ user_input) ].

(** An environment with a 22-character credential. *)
Definition env_long_key : Verifier.env :=
  {| Verifier.sys_version_info :=
       {| Verifier.major := 3; Verifier.minor := 11; Verifier.micro := 4 |};
     Verifier.import_raises := fun _ => None;
     Verifier.OPENAI_API_KEY := Some (lit "sk-proj-0123456789abcd");
     Verifier.ChatOpenAI_error := fun _ => None |}.

(** An environment with a 10-character credential. *)
Definition env_short_key : Verifier.env :=
  {| Verifier.sys_version_info :=
       {| Verifier.major := 3; Verifier.minor := 11; Verifier.micro := 4 |};
     Verifier.import_raises := fun _ => None;
     Verifier.OPENAI_API_KEY := Some (lit "sk-0123456");
     Verifier.ChatOpenAI_error := fun _ => None |}.

(** *** Further observations on the verifier *)

(** The package can be imported. *)
Definition importable (e : Verifier.env) (package : str) : bool :=
  match Verifier.import_raises e package with
  | None => true
  | Some _ => false
  end.

(** The outcome of an import is one [test_imports] goes on from: the
    import succeeds or raises [ImportError]. *)
Definition caught (o : option Verifier.raised) : bool :=
  match o with
  | None | Some (Verifier.ImportError _) => true
  | Some _ => false
  end.

(** None of the given packages raises, on import, anything but
    [ImportError]. *)
Definition imports_caught (e : Verifier.env) (packages : list (str * str))
  : bool :=
  forallb (fun p => caught (Verifier.import_raises e (fst p))) packages.

(** The first raise of an import, in the order of the packages, that is not
    an [ImportError]. *)
Fixpoint first_escape (e : Verifier.env) (packages : list (str * str))
  : option Verifier.raised :=
  match packages with
  | [] => None
  | p :: rest =>
      if caught (Verifier.import_raises e (fst p)) then first_escape e rest
      else Verifier.import_raises e (fst p)
  end.

(** The packages up to and with the first whose import raises something
    that is not an [ImportError]. *)
Fixpoint tried (e : Verifier.env) (packages : list (str * str))
  : list (str * str) :=
  match packages with
  | [] => []
  | p :: rest =>
      p :: if caught (Verifier.import_raises e (fst p)) then tried e rest
           else []
  end.

(** What [test_imports] does for an entry of [required_packages]: the
    import, and the line that reports it. *)
Definition import_lines (e : Verifier.env) (p : str * str) : list event :=
  TryImport (fst p)
  :: match Verifier.import_raises e (fst p) with
     | None => [Printed (lit "   ✅ " ++ snd p)]
     | Some (Verifier.ImportError _) =>
         [Printed (lit "   ❌ " ++ snd p ++ lit " (Not installed)")]
     | Some _ => []
     end.

(** The list [results] of [main] from the outcomes of the four checks. *)
Definition results_of (r1 r2 r3 : bool) (r4 : option bool)
  : list (str * bool) :=
  [ (lit "Python Version", r1); (lit "Dependencies", r2);
    (lit "API Key", r3) ]
  ++ match r4 with
     | Some r => [(lit "API Connection", r)]
     | None => []
     end.

(** The first three lines of [main]. *)
Definition main_heading : list event :=
  [ Printed (nl ++ str_mul (lit "=") 60);
    Printed (lit "LangChain Setup Verification");
    Printed (str_mul (lit "=") 60 ++ nl) ].

(** The package [openai] is broken: its import raises a [RuntimeError]. *)
Definition env_broken_package : Verifier.env :=
  {| Verifier.sys_version_info :=
       {| Verifier.major := 3; Verifier.minor := 11; Verifier.micro := 4 |};
     Verifier.import_raises := fun p =>
       if str_eqb p (lit "openai")
       then Some (Verifier.OtherException (lit "broken installation"))
       else None;
     Verifier.OPENAI_API_KEY := Some (lit "sk-proj-0123456789abcd");
     Verifier.ChatOpenAI_error := fun _ => None |}.


(** The packages whose import was attempted, in order. *)
Fixpoint attempted_imports (t : list event) : list str :=
  match t with
  | [] => []
  | TryImport package :: rest => package :: attempted_imports rest
  | _ :: rest => attempted_imports rest
  end.

(** The constructor calls of a trace, with their arguments, in order. *)
Fixpoint client_calls (t : list event) : list (str * str) :=
  match t with
  | [] => []
  | CallChatOpenAI model api_key :: rest =>
      (model, api_key) :: client_calls rest
  | _ :: rest => client_calls rest
  end.




(** The lines that close the summary. *)
Definition closing_lines (all_passed : bool) : list event :=
  if all_passed then
    [ Printed Verifier.success_banner;
      Printed (nl ++ lit "Run: python chatbot.py" ++ nl) ]
  else
    [ Printed (lit "⚠️  Some tests failed. See above for details." ++ nl) ].

(** A credential that the client constructor refuses. *)
Definition env_bad_key : Verifier.env :=
  {| Verifier.sys_version_info :=
       {| Verifier.major := 3; Verifier.minor := 11; Verifier.micro := 4 |};
     Verifier.import_raises := fun _ => None;
     Verifier.OPENAI_API_KEY := Some (lit "sk-proj-0123456789abcd");
     Verifier.ChatOpenAI_error := fun _ => Some (lit "invalid api key") |}.

(** *** Further observations on the chat loop *)

(** The two entries a successful exchange leaves in the memory. *)
Definition exchange_entries (p : str * str) : Chat.history :=
  [(Chat.Human, fst p); (Chat.AI, snd p)].

(** A user message as the loop hands it to the chain: trimmed, not empty,
    and not the exit keyword. *)
Definition stored_input (u : str) : Prop :=
  strip u = u /\ u <> [] /\ Chat.is_exit u = false.

(** The line reaches the chain: it is neither blank nor the exit keyword. *)
Definition reaches_model (line : str) : bool :=
  negb (Chat.blank line) && negb (Chat.is_exit line).

(** The step of a script ends the loop through a [break]: an exit line, or
    the operator's interrupt at the prompt or during the exchange. *)
Definition quits (step : Chat.input_event * Chat.remote_result) : bool :=
  match step with
  | (Chat.InLine line, remote) =>
      Chat.is_exit line
      || reaches_model line
         && match remote with
            | Chat.Raises Chat.KeyboardInterrupt => true
            | _ => false
            end
  | (Chat.InRaise Chat.KeyboardInterrupt, _) => true
  | (Chat.InRaise _, _) => false
  end.

(** The step of a script raises what neither handler takes. *)
Definition escapes (step : Chat.input_event * Chat.remote_result) : bool :=
  match step with
  | (Chat.InLine line, Chat.Raises (Chat.OtherBaseException _)) =>
      reaches_model line
  | (Chat.InRaise (Chat.OtherBaseException _), _) => true
  | _ => false
  end.

(** One of the sixteen spellings of "exit" in upper and lower case. *)
Definition exit_spelling (u : str) : bool :=
  match u with
  | [a; b; c; d] =>
      (Ascii.eqb a "e" || Ascii.eqb a "E")
      && (Ascii.eqb b "x" || Ascii.eqb b "X")
      && (Ascii.eqb c "i" || Ascii.eqb c "I")
      && (Ascii.eqb d "t" || Ascii.eqb d "T")
  | _ => false
  end.

(** ** Facts on the string primitives *)

Section StrFacts.

Import Verifier.

Lemma str_mul_star (n : Z) : str_mul (lit "*") n = repeat star (Z.to_nat n).
Proof.
  unfold str_mul. change (lit "*") with [star].
  induction (Z.to_nat n) as [|k IH]; cbn [repeat concat app].
  - reflexivity.
  - now rewrite IH.
Qed.

Lemma slice_bound_nonneg (s : str) (i : Z) :
  0 <= i -> slice_bound s i = Nat.min (Z.to_nat i) (length s).
Proof.
  intros Hi. unfold slice_bound, len.
  destruct (Z.ltb_spec i 0); lia.
Qed.

Lemma slice_bound_neg (s : str) (i : Z) :
  i < 0 -> slice_bound s i = (length s - Z.to_nat (- i))%nat.
Proof.
  intros Hi. unfold slice_bound, len.
  destruct (Z.ltb_spec i 0); lia.
Qed.

Lemma firstn_min_length {A} (n : nat) (l : list A) :
  firstn (Nat.min n (length l)) l = firstn n l.
Proof.
  destruct (Nat.le_gt_cases n (length l)) as [Hle|Hgt].
  - now rewrite Nat.min_l.
  - rewrite Nat.min_r, firstn_all by lia.
    symmetry. apply firstn_all2. lia.
Qed.

Lemma slice_to_8 (s : str) : slice_to s 8 = firstn 8 s.
Proof.
  unfold slice_to. rewrite slice_bound_nonneg by lia.
  apply firstn_min_length.
Qed.

Lemma slice_from_last4 (s : str) : slice_from s (-4) = skipn (length s - 4) s.
Proof.
  unfold slice_from. now rewrite slice_bound_neg by lia.
Qed.

Lemma masked_key_unfold (k : str) :
  masked_key k =
  firstn 8 k ++ repeat star (Z.to_nat (len k - 12)) ++ skipn (length k - 4) k.
Proof.
  unfold masked_key.
  now rewrite slice_to_8, str_mul_star, slice_from_last4, <- app_assoc.
Qed.

End StrFacts.

(** ** The credential mask *)

Section Mask.

Import Verifier.

Lemma masked_key_length_ge_12 (k : str) :
  (12 <= length k)%nat ->
  masked_key k =
  firstn 8 k ++ repeat star (length k - 12) ++ skipn (length k - 4) k.
Proof.
  intros HL. rewrite masked_key_unfold. unfold len.
  now replace (Z.to_nat (Z.of_nat (length k) - 12)) with (length k - 12)%nat
    by lia.
Qed.

Lemma masked_key_length_lt_12 (k : str) :
  (length k < 12)%nat ->
  masked_key k = firstn 8 k ++ skipn (length k - 4) k.
Proof.
  intros HL. rewrite masked_key_unfold. unfold len.
  now replace (Z.to_nat (Z.of_nat (length k) - 12)) with 0%nat by lia.
Qed.

(** The branch of [test_api_key] taken on a credential that is set. *)
Lemma test_api_key_found (e : env) (k : str) :
  OPENAI_API_KEY e = Some k -> k <> [] ->
  test_api_key e =
  (true, [ Printed (lit "🔍 Checking API Key Configuration...");
           LoadDotenv;
           Printed (lit "   ✅ API Key Found: " ++ masked_key k ++ nl) ]).
Proof.
  intros Hk Hne. unfold test_api_key. rewrite Hk.
  destruct k as [|c k]; [congruence|]. reflexivity.
Qed.

(** The branch of [test_api_key] taken when the credential is not set. *)
Lemma test_api_key_absent (e : env) :
  truthy (OPENAI_API_KEY e) = false ->
  value (test_api_key e) = false.
Proof.
  unfold test_api_key. destruct (OPENAI_API_KEY e) as [[|c k]|]; simpl;
    congruence.
Qed.

End Mask.

(** C1.  For a credential of length L >= 12 the masked form shown by the
    credential check is the first 8 characters of the key, then L - 12 mask
    characters, then the last 4 characters: it has the length of the key,
    agrees with the key on the first 8 and the last 4 positions and holds
    the mask character on every position between. *)
Theorem C1_mask_reveals_first8_last4 (e : Verifier.env) (k : str) :
  Verifier.OPENAI_API_KEY e = Some k ->
  (12 <= length k)%nat ->
  Verifier.masked_key k =
    firstn 8 k ++ repeat Verifier.star (length k - 12)
    ++ skipn (length k - 4) k
  /\ length (firstn 8 k) = 8%nat
  /\ length (skipn (length k - 4) k) = 4%nat
  /\ length (Verifier.masked_key k) = length k
  /\ (forall i, (i < 8)%nat ->
        nth_error (Verifier.masked_key k) i = nth_error k i)
  /\ (forall i, (8 <= i < length k - 4)%nat ->
        nth_error (Verifier.masked_key k) i = Some Verifier.star)
  /\ (forall i, (length k - 4 <= i < length k)%nat ->
        nth_error (Verifier.masked_key k) i = nth_error k i)
  /\ Verifier.test_api_key e =
     (true, [ Printed (lit "🔍 Checking API Key Configuration...");
              LoadDotenv;
              Printed (lit "   ✅ API Key Found: "
                       ++ (firstn 8 k ++ repeat Verifier.star (length k - 12)
                           ++ skipn (length k - 4) k)
                       ++ nl) ]).
Proof.
  intros He HL.
  pose proof (masked_key_length_ge_12 k HL) as Hm.
  assert (H8 : length (firstn 8 k) = 8%nat) by (rewrite length_firstn; lia).
  assert (H4 : length (skipn (length k - 4) k) = 4%nat)
    by (rewrite length_skipn; lia).
  repeat split; trivial.
  - rewrite Hm, !length_app, repeat_length, H8, H4. lia.
  - intros i Hi. rewrite Hm, nth_error_app1 by lia.
    rewrite nth_error_firstn.
    destruct (Nat.ltb_spec i 8); [reflexivity | lia].
  - intros i Hi. rewrite Hm, nth_error_app2 by lia.
    rewrite nth_error_app1 by (rewrite repeat_length; lia).
    apply nth_error_repeat. lia.
  - intros i Hi. rewrite Hm, nth_error_app2 by lia.
    rewrite nth_error_app2 by (rewrite repeat_length; lia).
    rewrite nth_error_skipn, repeat_length, H8. f_equal. lia.
  - rewrite <- Hm. apply test_api_key_found; trivial.
    intros ->. simpl in HL. lia.
Qed.

Lemma C1_witness :
  Verifier.OPENAI_API_KEY env_long_key = Some (lit "sk-proj-0123456789abcd")
  /\ (12 <= length (lit "sk-proj-0123456789abcd"))%nat
  /\ Verifier.masked_key (lit "sk-proj-0123456789abcd")
     = lit "sk-proj-**********abcd".
Proof.
  split; [reflexivity|]. split; [vm_compute; lia|].
  destruct (C1_mask_reveals_first8_last4 env_long_key
              (lit "sk-proj-0123456789abcd") eq_refl) as [Hm _].
  - vm_compute; lia.
  - rewrite Hm. reflexivity.
Defined.

(** C10.  For a non-empty credential of length L < 12 the mask expression
    contributes no mask character, and the form shown is the first
    min(8, L) characters of the key followed by its last min(4, L)
    characters.  A key of length at most 8 is shown whole (followed by a
    copy of its tail), and each character of a key shorter than 12 stands in
    clear in the output. *)
Theorem C10_short_key_not_masked (e : Verifier.env) (k : str) :
  Verifier.OPENAI_API_KEY e = Some k ->
  k <> [] ->
  (length k < 12)%nat ->
  str_mul (lit "*") (len k - 12) = []
  /\ Verifier.masked_key k =
       firstn (Nat.min 8 (length k)) k
       ++ skipn (length k - Nat.min 4 (length k)) k
  /\ length (firstn (Nat.min 8 (length k)) k) = Nat.min 8 (length k)
  /\ length (skipn (length k - Nat.min 4 (length k)) k)
     = Nat.min 4 (length k)
  /\ ((length k <= 8)%nat ->
        Verifier.masked_key k
        = k ++ skipn (length k - Nat.min 4 (length k)) k)
  /\ (forall i, (i < length k)%nat -> (i < 8)%nat ->
        nth_error (Verifier.masked_key k) i = nth_error k i)
  /\ (forall i, (i < length k)%nat -> (8 <= i)%nat ->
        nth_error (Verifier.masked_key k) (i + 12 - length k)
        = nth_error k i)
  /\ Verifier.test_api_key e =
     (true, [ Printed (lit "🔍 Checking API Key Configuration...");
              LoadDotenv;
              Printed (lit "   ✅ API Key Found: "
                       ++ (firstn (Nat.min 8 (length k)) k
                           ++ skipn (length k - Nat.min 4 (length k)) k)
                       ++ nl) ]).
Proof.
  intros He Hne HL.
  assert (Hm : Verifier.masked_key k =
               firstn (Nat.min 8 (length k)) k
               ++ skipn (length k - Nat.min 4 (length k)) k).
  { rewrite (masked_key_length_lt_12 k HL), firstn_min_length.
    do 2 f_equal. lia. }
  assert (Hf : length (firstn (Nat.min 8 (length k)) k)
               = Nat.min 8 (length k))
    by (rewrite length_firstn; lia).
  assert (Hs : length (skipn (length k - Nat.min 4 (length k)) k)
               = Nat.min 4 (length k))
    by (rewrite length_skipn; lia).
  repeat split; trivial.
  - rewrite str_mul_star. unfold len.
    now replace (Z.to_nat (Z.of_nat (length k) - 12)) with 0%nat by lia.
  - intros H8. rewrite Hm. f_equal.
    rewrite Nat.min_r by lia. apply firstn_all.
  - intros i Hi Hi8. rewrite Hm, nth_error_app1 by lia.
    rewrite nth_error_firstn.
    destruct (Nat.ltb_spec i (Nat.min 8 (length k))); [reflexivity | lia].
  - intros i Hi Hi8. rewrite Hm, nth_error_app2 by lia.
    rewrite nth_error_skipn, Hf. f_equal. lia.
  - rewrite <- Hm. now apply test_api_key_found.
Qed.

Lemma C10_witness :
  Verifier.OPENAI_API_KEY env_short_key = Some (lit "sk-0123456")
  /\ lit "sk-0123456" <> []
  /\ (length (lit "sk-0123456") < 12)%nat
  /\ Verifier.masked_key (lit "sk-0123456") = lit "sk-012343456".
Proof.
  split; [reflexivity|]. split; [discriminate|]. split; [vm_compute; lia|].
  destruct (C10_short_key_not_masked env_short_key (lit "sk-0123456") eq_refl)
    as (_ & Hm & _).
  - discriminate.
  - vm_compute; lia.
  - rewrite Hm. reflexivity.
Defined.

(** ** The verifier *)

Section EffectFacts.

Context {A B : Type}.


Lemma events_bind (c : M A) (k : A -> M B) :
  events (bind c k) = events c ++ events (k (value c)).
Proof.
  destruct c as [a t]. unfold bind, value, events. simpl.
  now destruct (k a).
Qed.

End EffectFacts.

Section RaisingFacts.

Context {E A B : Type}.

Lemma value_lift (c : M A) : value (@lift E A c) = inr (value c).
Proof. now destruct c. Qed.

Lemma events_lift (c : M A) : events (@lift E A c) = events c.
Proof. now destruct c. Qed.

Lemma value_xbind (c : X E A) (k : A -> X E B) :
  value (xbind c k)
  = match value c with
    | inl x => inl x
    | inr a => value (k a)
    end.
Proof.
  destruct c as [[x|a] t]; unfold xbind, value; cbn; [reflexivity|].
  now destruct (k a).
Qed.

Lemma events_xbind (c : X E A) (k : A -> X E B) :
  events (xbind c k)
  = events c ++ match value c with
                | inl _ => []
                | inr a => events (k a)
                end.
Proof.
  destruct c as [[x|a] t]; unfold xbind, value, events; cbn.
  - now rewrite app_nil_r.
  - now destruct (k a).
Qed.

End RaisingFacts.

Section VerifierFacts.

Import Verifier.

Lemma str_eqb_eq (s t : str) : str_eqb s t = true <-> s = t.
Proof.
  revert t. induction s as [|c s IH]; intros [|d t]; simpl;
    try (split; congruence).
  rewrite andb_true_iff, Ascii.eqb_eq, IH.
  split; [intros [-> ->] | intros [= -> ->]]; auto.
Qed.


Lemma value_test_api_key (e : env) :
  value (test_api_key e) = truthy (OPENAI_API_KEY e).
Proof.
  unfold test_api_key. destruct (OPENAI_API_KEY e) as [[|c k]|]; reflexivity.
Qed.

(** *** The imports *)

Lemma first_escape_none (e : env) (packages : list (str * str)) :
  imports_caught e packages = true -> first_escape e packages = None.
Proof.
  unfold imports_caught.
  induction packages as [|p rest IH]; cbn; [reflexivity|].
  destruct (caught (import_raises e (fst p))); cbn; [exact IH|discriminate].
Qed.

Lemma first_escape_some (e : env) (packages : list (str * str)) :
  imports_caught e packages = false ->
  exists x, first_escape e packages = Some x.
Proof.
  unfold imports_caught.
  induction packages as [|p rest IH]; cbn; [discriminate|].
  destruct (import_raises e (fst p)) as [[m|m|m]|]; cbn; eauto.
Qed.

Lemma tried_all (e : env) (packages : list (str * str)) :
  imports_caught e packages = true -> tried e packages = packages.
Proof.
  unfold imports_caught.
  induction packages as [|p rest IH]; cbn; [reflexivity|].
  destruct (caught (import_raises e (fst p))); cbn; [|discriminate].
  intros H. now rewrite IH.
Qed.

(** The packages before the first whose import is not caught, and that
    one. *)
Lemma escape_at (e : env) (before after : list (str * str))
  (p : str * str) (x : raised) :
  imports_caught e before = true ->
  import_raises e (fst p) = Some x ->
  caught (Some x) = false ->
  first_escape e (before ++ p :: after) = Some x
  /\ tried e (before ++ p :: after) = before ++ [p].
Proof.
  unfold imports_caught. intros Hb Hp Hx.
  induction before as [|q before IH]; cbn in Hb |- *.
  - now rewrite Hp, Hx.
  - destruct (caught (import_raises e (fst q))); [|discriminate].
    destruct (IH Hb) as [-> ->]. now split.
Qed.

Lemma import_each_eq (e : env) (packages : list (str * str)) :
  forall all_good,
    import_each e packages all_good
    = (match first_escape e packages with
       | Some x => inl x
       | None =>
           inr (all_good
                && forallb (fun p => importable e (fst p)) packages)
       end,
       flat_map (import_lines e) (tried e packages)).
Proof.
  induction packages as [|[package name] rest IH]; intros all_good.
  - cbn. now rewrite andb_true_r.
  - cbn [import_each first_escape tried forallb flat_map fst snd].
    unfold import_lines at 1, importable at 1. cbn [fst snd].
    destruct (import_raises e package) as [[m|m|m]|]; cbn [caught];
      unfold xbind, lift, emit, print, throw; rewrite ?IH; cbn;
      try reflexivity;
      destruct (first_escape e rest); rewrite ?andb_false_r; reflexivity.
Qed.

Lemma test_imports_eq (e : env) :
  test_imports e
  = match first_escape e required_packages with
    | Some x =>
        (inl x,
         Printed (lit "🔍 Checking Required Packages...")
         :: flat_map (import_lines e) (tried e required_packages))
    | None =>
        (inr (forallb (fun p => importable e (fst p)) required_packages),
         Printed (lit "🔍 Checking Required Packages...")
         :: flat_map (import_lines e) (tried e required_packages)
         ++ [Printed []])
    end.
Proof.
  unfold test_imports. rewrite import_each_eq.
  unfold xbind, lift, print, emit, xret.
  destruct (first_escape e required_packages); reflexivity.
Qed.

(** *** The connectivity check, branch by branch *)

Lemma test_api_connection_cases (e : env) :
  test_api_connection e =
  match import_raises e (lit "langchain_openai") with
  | Some (NonException text) =>
      (inl (NonException text),
       [ Printed (lit "🔍 Testing OpenAI API Connection...");
         TryImport (lit "langchain_openai") ])
  | Some (ImportError msg) | Some (OtherException msg) =>
      (inr (Some false),
       [ Printed (lit "🔍 Testing OpenAI API Connection...");
         TryImport (lit "langchain_openai");
         Printed (lit "   ❌ Connection Failed: " ++ msg ++ nl) ])
  | None =>
      match OPENAI_API_KEY e with
      | Some (c :: k) =>
          match ChatOpenAI_error e (c :: k) with
          | None =>
              (inr (Some true),
               [ Printed (lit "🔍 Testing OpenAI API Connection...");
                 TryImport (lit "langchain_openai");
                 CallChatOpenAI (lit "gpt-3.5-turbo") (c :: k);
                 Printed (lit "   ✅ OpenAI API Connection Successful"
                          ++ nl) ])
          | Some msg =>
              (inr (Some false),
               [ Printed (lit "🔍 Testing OpenAI API Connection...");
                 TryImport (lit "langchain_openai");
                 CallChatOpenAI (lit "gpt-3.5-turbo") (c :: k);
                 Printed (lit "   ❌ Connection Failed: " ++ msg ++ nl) ])
          end
      | _ =>
          (inr None,
           [ Printed (lit "🔍 Testing OpenAI API Connection...");
             TryImport (lit "langchain_openai");
             Printed
               (lit "   ⚠️  API Key not available, skipping connection test"
                ++ nl) ])
      end
  end.
Proof.
  unfold test_api_connection.
  destruct (import_raises e (lit "langchain_openai")) as [[m|m|m]|];
    try reflexivity.
  destruct (OPENAI_API_KEY e) as [[|c k]|]; try reflexivity.
  destruct (ChatOpenAI_error e (c :: k)); reflexivity.
Qed.

Lemma value_test_api_connection (e : env) :
  value (test_api_connection e) =
  match import_raises e (lit "langchain_openai") with
  | Some (NonException text) => inl (NonException text)
  | Some _ => inr (Some false)
  | None =>
      match OPENAI_API_KEY e with
      | Some (c :: k) =>
          inr (Some match ChatOpenAI_error e (c :: k) with
                    | None => true
                    | Some _ => false
                    end)
      | _ => inr None
      end
  end.
Proof.
  rewrite test_api_connection_cases.
  destruct (import_raises e (lit "langchain_openai")) as [[m|m|m]|];
    try reflexivity.
  destruct (OPENAI_API_KEY e) as [[|c k]|]; try reflexivity.
  destruct (ChatOpenAI_error e (c :: k)); reflexivity.
Qed.

(** *** [run_tests] and [main], by the way they are left *)

Lemma run_tests_eq (e : env) :
  run_tests e =
  match value (test_imports e) with
  | inl x =>
      (inl x, events (test_python_version e) ++ events (test_imports e))
  | inr r2 =>
      match value (test_api_connection e) with
      | inl x =>
          (inl x,
           events (test_python_version e) ++ events (test_imports e)
           ++ events (test_api_key e) ++ events (test_api_connection e))
      | inr r4 =>
          (inr (results_of (value (test_python_version e)) r2
                  (value (test_api_key e)) r4),
           events (test_python_version e) ++ events (test_imports e)
           ++ events (test_api_key e) ++ events (test_api_connection e))
      end
  end.
Proof.
  unfold run_tests.
  destruct (test_python_version e) as [r1 t1],
    (test_imports e) as [[x|r2] t2], (test_api_key e) as [r3 t3],
    (test_api_connection e) as [[y|[r4|]] t4];
    cbn; rewrite ?app_nil_r; reflexivity.
Qed.

Lemma main_eq (e : env) :
  main e =
  match value (run_tests e) with
  | inl x => (inl x, main_heading ++ events (run_tests e))
  | inr results =>
      (inr tt,
       main_heading ++ events (run_tests e) ++ events (summary results))
  end.
Proof.
  assert (Hv : value (main e)
               = match value (run_tests e) with
                 | inl x => inl x
                 | inr _ => inr tt
                 end).
  { unfold main. rewrite !value_xbind, !value_lift.
    destruct (value (run_tests e)) as [x|results]; [reflexivity|].
    rewrite value_lift. now destruct (value (summary results)). }
  assert (He : events (main e)
               = main_heading ++ events (run_tests e)
                 ++ match value (run_tests e) with
                    | inl _ => []
                    | inr results => events (summary results)
                    end).
  { unfold main. rewrite !events_xbind, !value_lift, !events_lift.
    destruct (value (run_tests e)) as [x|results]; rewrite ?events_lift;
      reflexivity. }
  rewrite (surjective_pairing (main e)).
  change (fst (main e)) with (value (main e)).
  change (snd (main e)) with (events (main e)).
  rewrite Hv, He.
  destruct (value (run_tests e)); rewrite ?app_nil_r; reflexivity.
Qed.

Lemma langchain_openai_caught (e : env) :
  imports_caught e required_packages = true ->
  caught (import_raises e (lit "langchain_openai")) = true.
Proof.
  unfold imports_caught. cbn [forallb required_packages fst].
  rewrite !andb_true_iff. tauto.
Qed.

(** When no import raises anything but [ImportError], the four checks
    return. *)
Lemma run_tests_returns (e : env) :
  imports_caught e required_packages = true ->
  exists r4,
    value (test_imports e)
    = inr (forallb (fun p => importable e (fst p)) required_packages)
    /\ value (test_api_connection e) = inr r4
    /\ value (run_tests e)
       = inr (results_of (value (test_python_version e))
                (forallb (fun p => importable e (fst p)) required_packages)
                (value (test_api_key e)) r4).
Proof.
  intros Hc. pose proof (langchain_openai_caught e Hc) as Hlo.
  assert (Hi : value (test_imports e)
               = inr (forallb (fun p => importable e (fst p))
                              required_packages))
    by now rewrite test_imports_eq, (first_escape_none e _ Hc).
  assert (Hr : exists r4, value (test_api_connection e) = inr r4).
  { rewrite value_test_api_connection.
    destruct (import_raises e (lit "langchain_openai")) as [[m|m|m]|];
      try discriminate; eauto.
    destruct (OPENAI_API_KEY e) as [[|c k]|]; eauto. }
  destruct Hr as [r4 Hr]. exists r4. rewrite run_tests_eq, Hi, Hr.
  now repeat split.
Qed.

(** When an import raises something else, [test_imports], [run_tests] and
    [main] are left by that raise. *)
Lemma run_tests_raises (e : env) :
  imports_caught e required_packages = false ->
  exists x,
    first_escape e required_packages = Some x
    /\ value (test_imports e) = inl x
    /\ value (run_tests e) = inl x
    /\ main e
       = (inl x,
          main_heading ++ events (test_python_version e)
          ++ events (test_imports e)).
Proof.
  intros Hc. destruct (first_escape_some e _ Hc) as [x Hx]. exists x.
  assert (Hi : value (test_imports e) = inl x)
    by now rewrite test_imports_eq, Hx.
  assert (Hr : run_tests e
               = (inl x, events (test_python_version e)
                         ++ events (test_imports e)))
    by now rewrite run_tests_eq, Hi.
  rewrite main_eq, Hr. now repeat split.
Qed.

Lemma run_tests_returns_iff (e : env) :
  (exists results, value (run_tests e) = inr results)
  <-> imports_caught e required_packages = true.
Proof.
  split.
  - intros [results Hr].
    destruct (imports_caught e required_packages) eqn:Hc; [reflexivity|].
    destruct (run_tests_raises e Hc) as (x & _ & _ & Hx & _). congruence.
  - intros Hc. destruct (run_tests_returns e Hc) as (r4 & _ & _ & Hr).
    eauto.
Qed.

(** *** Where the success banner can come from *)

Lemma is_success_banner_iff (ev : event) :
  is_success_banner ev = true <-> ev = Printed success_banner.
Proof.
  destruct ev; simpl; try (split; congruence).
  rewrite str_eqb_eq. split; congruence.
Qed.

Lemma banner_in_iff (t : list event) :
  In (Printed success_banner) t <-> existsb is_success_banner t = true.
Proof.
  rewrite existsb_exists. split.
  - intros Hin. exists (Printed success_banner). split; [exact Hin|].
    now apply is_success_banner_iff.
  - intros (ev & Hin & Hev). apply is_success_banner_iff in Hev.
    now subst.
Qed.

Lemma import_lines_no_banner (e : env) (packages : list (str * str)) :
  existsb is_success_banner (flat_map (import_lines e) packages) = false.
Proof.
  induction packages as [|[package name] rest IH]; [reflexivity|].
  cbn [flat_map]. rewrite existsb_app, IH, orb_false_r.
  unfold import_lines. cbn [fst snd].
  destruct (import_raises e package) as [[m|m|m]|]; reflexivity.
Qed.

Lemma test_imports_no_banner (e : env) :
  existsb is_success_banner (events (test_imports e)) = false.
Proof.
  rewrite test_imports_eq.
  destruct (first_escape e required_packages); unfold events; cbn [snd];
    cbn [existsb is_success_banner]; rewrite ?existsb_app,
      import_lines_no_banner; reflexivity.
Qed.

Lemma run_tests_no_banner (e : env) :
  existsb is_success_banner (events (run_tests e)) = false.
Proof.
  assert (H1 : existsb is_success_banner (events (test_python_version e))
               = false).
  { unfold test_python_version. rewrite events_bind, existsb_app.
    destruct ((major (sys_version_info e) =? 3)
              && (9 <=? minor (sys_version_info e)))%nat; reflexivity. }
  pose proof (test_imports_no_banner e) as H2.
  assert (H3 : existsb is_success_banner (events (test_api_key e)) = false).
  { unfold test_api_key. rewrite !events_bind, !existsb_app.
    destruct (OPENAI_API_KEY e) as [[|c k]|]; reflexivity. }
  assert (H4 : existsb is_success_banner (events (test_api_connection e))
               = false).
  { rewrite test_api_connection_cases.
    destruct (import_raises e (lit "langchain_openai")) as [[m|m|m]|];
      try reflexivity.
    destruct (OPENAI_API_KEY e) as [[|c k]|]; try reflexivity.
    destruct (ChatOpenAI_error e (c :: k)); reflexivity. }
  rewrite run_tests_eq.
  destruct (value (test_imports e)) as [x|r2];
    [|destruct (value (test_api_connection e)) as [x|r4]];
    unfold events at 1; cbn [snd];
    now rewrite !existsb_app, H1, H2, ?H3, ?H4.
Qed.

(** The summary prints the banner exactly when its two counts agree. *)
Lemma summary_banner (r1 r2 r3 : bool) (r4 : option bool) :
  existsb is_success_banner (events (summary (results_of r1 r2 r3 r4)))
  = forallb snd (results_of r1 r2 r3 r4).
Proof.
  destruct r1, r2, r3, r4 as [[|]|]; vm_compute; reflexivity.
Qed.

Lemma counts_of_results (r1 r2 r3 : bool) (r4 : option bool) :
  passed_of (results_of r1 r2 r3 r4) = count_true r1 r2 r3 r4
  /\ total_of (results_of r1 r2 r3 r4) = count_executed r4.
Proof.
  destruct r1, r2, r3, r4 as [[|]|]; vm_compute; auto.
Qed.

(** The totals line, character by character. *)
Lemma total_line_of_results (r1 r2 r3 : bool) (r4 : option bool) :
  total_line (passed_of (results_of r1 r2 r3 r4))
             (total_of (results_of r1 r2 r3 r4))
  = nl ++ lit "Total: " ++ [ascii_of_nat (48 + count_true r1 r2 r3 r4)]
    ++ lit "/" ++ [ascii_of_nat (48 + count_executed r4)]
    ++ lit " tests passed" ++ nl.
Proof.
  destruct r1, r2, r3, r4 as [[|]|]; vm_compute; reflexivity.
Qed.

(** The results of [run_tests], when it returns. *)
Lemma run_tests_results (e : env) (results : list (str * bool)) :
  value (run_tests e) = inr results ->
  exists r2 r4,
    value (test_imports e) = inr r2
    /\ value (test_api_connection e) = inr r4
    /\ results = results_of (value (test_python_version e)) r2
                   (value (test_api_key e)) r4.
Proof.
  rewrite run_tests_eq.
  destruct (value (test_imports e)) as [x|r2]; [discriminate|].
  destruct (value (test_api_connection e)) as [x|r4]; [discriminate|].
  intros [= <-]. now exists r2, r4.
Qed.

(** *** Where the client constructor can be called *)

Lemma import_lines_no_client (e : env) (packages : list (str * str)) :
  existsb is_client_call (flat_map (import_lines e) packages) = false.
Proof.
  induction packages as [|[package name] rest IH]; [reflexivity|].
  cbn [flat_map]. rewrite existsb_app, IH, orb_false_r.
  unfold import_lines. cbn [fst snd].
  destruct (import_raises e package) as [[m|m|m]|]; reflexivity.
Qed.

Lemma print_results_no_client (results : list (str * bool)) :
  existsb is_client_call (events (print_results results)) = false.
Proof.
  induction results as [|[test_name result] rest IH].
  - reflexivity.
  - cbn [print_results]. now rewrite events_bind, existsb_app, IH.
Qed.

Lemma summary_no_client (results : list (str * bool)) :
  existsb is_client_call (events (summary results)) = false.
Proof.
  unfold summary. rewrite !events_bind, !existsb_app, print_results_no_client.
  destruct (passed_of results =? total_of results)%nat; reflexivity.
Qed.

Lemma run_tests_no_client (e : env) :
  truthy (OPENAI_API_KEY e) = false ->
  existsb is_client_call (events (run_tests e)) = false.
Proof.
  intros Hk.
  assert (H1 : existsb is_client_call (events (test_python_version e))
               = false).
  { unfold test_python_version. rewrite events_bind, existsb_app.
    destruct ((major (sys_version_info e) =? 3)
              && (9 <=? minor (sys_version_info e)))%nat; reflexivity. }
  assert (H2 : existsb is_client_call (events (test_imports e)) = false).
  { rewrite test_imports_eq.
    destruct (first_escape e required_packages); unfold events; cbn [snd];
      cbn [existsb is_client_call]; rewrite ?existsb_app,
        import_lines_no_client; reflexivity. }
  assert (H3 : existsb is_client_call (events (test_api_key e)) = false).
  { unfold test_api_key. rewrite !events_bind, !existsb_app.
    destruct (OPENAI_API_KEY e) as [[|c k]|]; reflexivity. }
  assert (H4 : existsb is_client_call (events (test_api_connection e))
               = false).
  { rewrite test_api_connection_cases.
    destruct (import_raises e (lit "langchain_openai")) as [[m|m|m]|];
      try reflexivity.
    destruct (OPENAI_API_KEY e) as [[|c k]|]; try reflexivity.
    discriminate. }
  rewrite run_tests_eq.
  destruct (value (test_imports e)) as [x|r2];
    [|destruct (value (test_api_connection e)) as [x|r4]];
    unfold events at 1; cbn [snd];
    now rewrite !existsb_app, H1, H2, ?H3, ?H4.
Qed.

Lemma summary_prints_total (results : list (str * bool)) :
  In (Printed (total_line (passed_of results) (total_of results)))
     (events (summary results)).
Proof.
  unfold summary. rewrite !events_bind.
  do 3 (apply in_or_app; right).
  apply in_or_app; right. apply in_or_app; left. now left.
Qed.

(** The banner is printed exactly when [run_tests] returns and every
    result is true. *)
Lemma main_banner_iff (e : env) :
  In (Printed success_banner) (events (main e))
  <-> exists results,
        value (run_tests e) = inr results /\ forallb snd results = true.
Proof.
  rewrite banner_in_iff, main_eq.
  destruct (value (run_tests e)) as [x|results] eqn:Hr;
    unfold events at 1; cbn [snd].
  - rewrite existsb_app, run_tests_no_banner. cbn.
    split; [discriminate | intros (r & H & _); discriminate].
  - destruct (run_tests_results e results Hr) as (r2 & r4 & _ & _ & ->).
    rewrite !existsb_app, run_tests_no_banner, summary_banner. cbn [orb].
    split; [eauto | now intros (r & [= <-] & H)].
Qed.

End VerifierFacts.

(** C6.  Whenever the checks of [main] return, the list of results holds
    the three unconditional checks and the connectivity check unless it was
    skipped; the summary line reads "Total: p/t tests passed" where the
    numerator p is the number of executed checks that returned true and the
    denominator t is the number of executed checks; a skipped connectivity
    check enters neither. *)
Theorem C6_aggregate_counts (e : Verifier.env) (results : list (str * bool)) :
  value (Verifier.run_tests e) = inr results ->
  let r1 := value (Verifier.test_python_version e) in
  let r3 := value (Verifier.test_api_key e) in
  exists r2 r4,
    value (Verifier.test_imports e) = inr r2
    /\ value (Verifier.test_api_connection e) = inr r4
    /\ results =
         [ (lit "Python Version", r1); (lit "Dependencies", r2);
           (lit "API Key", r3) ]
         ++ match r4 with
            | Some r => [(lit "API Connection", r)]
            | None => []
            end
    /\ Verifier.passed_of results = count_true r1 r2 r3 r4
    /\ Verifier.passed_of results
       = length (filter (fun p => snd p) results)
    /\ Verifier.total_of results = count_executed r4
    /\ In (Printed
             (nl ++ lit "Total: "
              ++ [ascii_of_nat (48 + count_true r1 r2 r3 r4)]
              ++ lit "/" ++ [ascii_of_nat (48 + count_executed r4)]
              ++ lit " tests passed" ++ nl))
          (events (Verifier.main e)).
Proof.
  intros Hr. cbv zeta.
  destruct (run_tests_results e results Hr) as (r2 & r4 & H2 & H4 & ->).
  exists r2, r4.
  destruct (counts_of_results (value (Verifier.test_python_version e)) r2
              (value (Verifier.test_api_key e)) r4) as [Hp Ht].
  split; [exact H2|]. split; [exact H4|]. split; [reflexivity|].
  split; [exact Hp|]. split.
  { unfold Verifier.passed_of.
    induction (filter (fun p => snd p)
                 (results_of (value (Verifier.test_python_version e)) r2
                    (value (Verifier.test_api_key e)) r4))
      as [|x l IH]; simpl; congruence. }
  split; [exact Ht|].
  rewrite <- total_line_of_results, main_eq, Hr.
  unfold events. cbn [snd].
  apply in_or_app; right. apply in_or_app; right.
  apply summary_prints_total.
Qed.

Lemma C6_witness :
  value (Verifier.run_tests env_no_key)
  = inr [ (lit "Python Version", true); (lit "Dependencies", true);
          (lit "API Key", false) ]
  /\ In (Printed (nl ++ lit "Total: 2/3 tests passed" ++ nl))
        (events (Verifier.main env_no_key)).
Proof.
  split; [reflexivity|].
  destruct (C6_aggregate_counts env_no_key
              [ (lit "Python Version", true); (lit "Dependencies", true);
                (lit "API Key", false) ] eq_refl)
    as (r2 & r4 & H2 & H4 & _ & _ & _ & _ & Hin).
  injection H2 as <-. injection H4 as <-. exact Hin.
Defined.




(** C8 (amended).  The success banner is printed exactly when the checks
    return and every executed check passed.  When the credential is absent
    the credential check returns false, no client constructor is called and
    the banner is not printed; if moreover [langchain_openai] can be
    imported, the connectivity check is skipped and, whenever the checks
    return, the summary counts three checks.  The checks return whenever no
    import raises anything but [ImportError]. *)
Theorem C8_absent_credential (e : Verifier.env) :
  (In (Printed Verifier.success_banner) (events (Verifier.main e))
   <-> exists results,
         value (Verifier.run_tests e) = inr results
         /\ forallb snd results = true)
  /\ (truthy (Verifier.OPENAI_API_KEY e) = false ->
      value (Verifier.test_api_key e) = false
      /\ existsb is_client_call (events (Verifier.main e)) = false
      /\ ~ In (Printed Verifier.success_banner) (events (Verifier.main e))
      /\ (Verifier.import_raises e (lit "langchain_openai") = None ->
          value (Verifier.test_api_connection e) = inr None
          /\ (forall results,
                value (Verifier.run_tests e) = inr results ->
                exists r2,
                  value (Verifier.test_imports e) = inr r2
                  /\ results =
                     [ (lit "Python Version",
                        value (Verifier.test_python_version e));
                       (lit "Dependencies", r2);
                       (lit "API Key", false) ]
                  /\ Verifier.total_of results = 3%nat
                  /\ Verifier.passed_of results
                     = (Nat.b2n (value (Verifier.test_python_version e))
                        + Nat.b2n r2)%nat)
          /\ (imports_caught e Verifier.required_packages = true ->
              exists results,
                value (Verifier.run_tests e) = inr results))).
Proof.
  split; [apply main_banner_iff|].
  intros Hk.
  pose proof (test_api_key_absent e Hk) as Hkey.
  split; [exact Hkey|]. split; [|split].
  - rewrite main_eq.
    destruct (value (Verifier.run_tests e)); unfold events at 1; cbn [snd];
      rewrite !existsb_app, (run_tests_no_client e Hk), ?summary_no_client;
      reflexivity.
  - rewrite main_banner_iff. intros (results & Hr & Hall).
    destruct (run_tests_results e results Hr) as (r2 & r4 & _ & _ & ->).
    rewrite Hkey in Hall. cbn in Hall.
    rewrite !andb_false_r in Hall. cbn in Hall.
    rewrite ?andb_false_r in Hall. discriminate.
  - intros Himp.
    assert (Hconn : value (Verifier.test_api_connection e) = inr None).
    { rewrite value_test_api_connection, Himp.
      destruct (Verifier.OPENAI_API_KEY e) as [[|c k]|];
        try reflexivity; discriminate. }
    split; [exact Hconn|]. split.
    + intros results Hr.
      destruct (run_tests_results e results Hr) as (r2 & r4 & H2 & H4 & ->).
      rewrite Hconn in H4. injection H4 as <-. rewrite Hkey.
      exists r2. split; [exact H2|]. split; [reflexivity|].
      split; [reflexivity|].
      destruct (value (Verifier.test_python_version e)), r2; reflexivity.
    + intros Hc. now apply run_tests_returns_iff.
Qed.

Lemma C8_witness :
  truthy (Verifier.OPENAI_API_KEY env_no_key) = false
  /\ Verifier.import_raises env_no_key (lit "langchain_openai") = None
  /\ value (Verifier.test_api_connection env_no_key) = inr None
  /\ ~ In (Printed Verifier.success_banner)
          (events (Verifier.main env_no_key)).
Proof.
  split; [reflexivity|]. split; [reflexivity|].
  destruct (proj2 (C8_absent_credential env_no_key) eq_refl)
    as (_ & _ & Hb & Hs).
  destruct (Hs eq_refl) as (Hc & _).
  split; assumption.
Defined.

(** C8 as stated fails: with no credential and [langchain_openai] not
    installed, the connectivity check is not skipped; it returns false and
    is counted among the four checks of the summary. *)
Lemma C8_counterexample :
  truthy (Verifier.OPENAI_API_KEY env_bare) = false
  /\ value (Verifier.test_api_connection env_bare) = inr (Some false)
  /\ value (Verifier.test_api_connection env_bare) <> inr None
  /\ value (Verifier.run_tests env_bare)
     = inr [ (lit "Python Version", true); (lit "Dependencies", false);
             (lit "API Key", false); (lit "API Connection", false) ]
  /\ In (Printed (nl ++ lit "Total: 1/4 tests passed" ++ nl))
        (events (Verifier.main env_bare)).
Proof.
  repeat split; try reflexivity; try discriminate.
  vm_compute. repeat (first [left; reflexivity | right]).
Qed.

(** ** The chat loop *)

Section StripFacts.

Lemma lstrip_nil_iff (s : str) : lstrip s = [] <-> Chat.blank s = true.
Proof.
  unfold Chat.blank. induction s as [|c s IH]; simpl.
  - split; reflexivity.
  - destruct (isspace c); simpl; [exact IH | split; discriminate].
Qed.

Lemma lstrip_idem (s : str) : lstrip (lstrip s) = lstrip s.
Proof.
  induction s as [|c s IH]; simpl; [reflexivity|].
  destruct (isspace c) eqn:Hc; [exact IH|].
  simpl. now rewrite Hc.
Qed.

Lemma blank_rev (s : str) : Chat.blank (rev s) = Chat.blank s.
Proof.
  unfold Chat.blank. induction s as [|c s IH]; simpl; [reflexivity|].
  rewrite forallb_app, IH. simpl. rewrite andb_true_r. apply andb_comm.
Qed.

Lemma rev_nil_iff {A} (l : list A) : rev l = [] <-> l = [].
Proof.
  split; [|intros ->; reflexivity].
  intros H. apply (f_equal (@rev A)) in H. now rewrite rev_involutive in H.
Qed.

(** Trimming leaves nothing exactly on the lines that hold only
    whitespace. *)
Lemma strip_nil_iff (line : str) : strip line = [] <-> Chat.blank line = true.
Proof.
  unfold strip, rstrip.
  transitivity (lstrip (rev (lstrip line)) = []); [apply rev_nil_iff|].
  transitivity (Chat.blank (lstrip line) = true).
  { rewrite <- blank_rev. apply lstrip_nil_iff. }
  rewrite <- !lstrip_nil_iff. now rewrite lstrip_idem.
Qed.

Lemma truthy_strip (line : str) :
  truthy (Some (strip line)) = negb (Chat.blank line).
Proof.
  destruct (Chat.blank line) eqn:Hb.
  - apply strip_nil_iff in Hb. now rewrite Hb.
  - destruct (strip line) eqn:Hs; [|reflexivity].
    apply strip_nil_iff in Hs. congruence.
Qed.

Lemma blank_not_exit (line : str) :
  Chat.blank line = true -> Chat.is_exit line = false.
Proof.
  intros Hb. unfold Chat.is_exit.
  apply strip_nil_iff in Hb. now rewrite Hb.
Qed.

End StripFacts.

Section ChainFacts.

Import Chat.

Lemma prompt_pieces : prompt = Some [Text instructions; Field (lit "input")].
Proof. vm_compute. reflexivity. Qed.

Lemma fill_template_eq (text : str) :
  fill_template text = Some (instructions ++ text).
Proof.
  unfold fill_template. rewrite prompt_pieces.
  cbn [format lookup]. change (str_eqb (lit "input") (lit "input")) with true.
  cbv iota. now rewrite app_nil_r.
Qed.

Lemma chain_run_eq (memory : history) (user_input : str)
  (remote : remote_result) :
  chain_run memory user_input remote =
  match remote with
  | Reply response =>
      Ran (inr response) (memory ++ [(Human, user_input); (AI, response)])
          [Invoke (instructions ++ user_input)]
  | Raises r => Ran (inl r) memory [Invoke (instructions ++ user_input)]
  end.
Proof.
  unfold chain_run. rewrite prompt_pieces.
  cbn [format lookup]. change (str_eqb (lit "input") (lit "input")) with true.
  cbv iota. now rewrite app_nil_r.
Qed.

Lemma iteration_exit (memory : history) (line : str) (remote : remote_result) :
  is_exit line = true ->
  iteration memory (InLine line) remote
  = Outcome Break memory [Asked (lit "You: "); Printed exit_farewell].
Proof.
  unfold is_exit, iteration, try_block. now intros ->.
Qed.

Lemma iteration_blank (memory : history) (line : str) (remote : remote_result) :
  blank line = true ->
  iteration memory (InLine line) remote
  = Outcome Continue memory [Asked (lit "You: "); Printed empty_notice].
Proof.
  intros Hb. pose proof (blank_not_exit line Hb) as Hx.
  unfold is_exit in Hx. unfold iteration, try_block.
  now rewrite Hx, truthy_strip, Hb.
Qed.

(** An iteration on a line that is neither the exit keyword nor blank. *)
Lemma iteration_exchange (memory : history) (line : str)
  (remote : remote_result) :
  is_exit line = false -> blank line = false ->
  iteration memory (InLine line) remote =
  match remote with
  | Reply response =>
      Outcome Continue
        (memory ++ [(Human, strip line); (AI, response)])
        (exchange_prefix (strip line) ++ [Printed (reply_line response)])
  | Raises KeyboardInterrupt =>
      Outcome Break memory
        (exchange_prefix (strip line) ++ [Printed interrupt_farewell])
  | Raises (PyException e) =>
      Outcome Continue memory
        (exchange_prefix (strip line)
         ++ [Printed (error_line e); Printed advice_line])
  | Raises (OtherBaseException e) =>
      Outcome (Propagate (OtherBaseException e)) memory
        (exchange_prefix (strip line))
  end.
Proof.
  intros Hx Hb. unfold is_exit in Hx. unfold iteration, try_block.
  rewrite Hx, truthy_strip, Hb, chain_run_eq.
  destruct remote as [response|[|e|e]]; reflexivity.
Qed.

Lemma iteration_input_raise (memory : history) (r : raised)
  (remote : remote_result) :
  iteration memory (InRaise r) remote =
  match r with
  | KeyboardInterrupt =>
      Outcome Break memory [Asked (lit "You: "); Printed interrupt_farewell]
  | PyException e =>
      Outcome Continue memory
        [Asked (lit "You: "); Printed (error_line e); Printed advice_line]
  | OtherBaseException e =>
      Outcome (Propagate (OtherBaseException e)) memory [Asked (lit "You: ")]
  end.
Proof. destruct r; reflexivity. Qed.

End ChainFacts.

Section LoopFacts.

Import Chat.

Lemma loop_continue (memory : history) (i : input_event)
  (remote : remote_result) (rest : list (input_event * remote_result))
  (memory' : history) (t : list event) :
  iteration memory i remote = Outcome Continue memory' t ->
  loop memory ((i, remote) :: rest)
  = Run (state (loop memory' rest)) (final_memory (loop memory' rest))
        (t ++ output (loop memory' rest)).
Proof. intros H. cbn [loop]. now rewrite H. Qed.

Lemma loop_break (memory : history) (i : input_event)
  (remote : remote_result) (rest : list (input_event * remote_result))
  (memory' : history) (t : list event) :
  iteration memory i remote = Outcome Break memory' t ->
  loop memory ((i, remote) :: rest) = Run terminated memory' t.
Proof. intros H. cbn [loop]. now rewrite H. Qed.

Lemma is_exit_iff (line : str) :
  is_exit line = true <-> lower (strip line) = lit "exit".
Proof. apply str_eqb_eq. Qed.

End LoopFacts.

(** C2.  An iteration on a line ends the loop through the exit branch
    (the farewell printed, the memory untouched) exactly when the line,
    trimmed and lowered, is the keyword "exit"; the rest of the script is
    then not read.  The only other way an iteration on a line ends the loop
    is the operator's interrupt during the exchange.  "EXIT", " exit " and
    "Exit" are exit lines. *)
Theorem C2_exit_keyword (memory : Chat.history) (line : str)
  (remote : Chat.remote_result) :
  (lower (strip line) = lit "exit"
   <-> Chat.iteration memory (Chat.InLine line) remote
       = Chat.Outcome Chat.Break memory
           [Asked (lit "You: "); Printed Chat.exit_farewell])
  /\ (lower (strip line) = lit "exit"
      <-> forall rest,
            Chat.loop memory ((Chat.InLine line, remote) :: rest)
            = Chat.Run Chat.terminated memory
                [Asked (lit "You: "); Printed Chat.exit_farewell])
  /\ (Chat.ctl (Chat.iteration memory (Chat.InLine line) remote) = Chat.Break
      <-> lower (strip line) = lit "exit"
          \/ (Chat.blank line = false
              /\ remote = Chat.Raises Chat.KeyboardInterrupt))
  /\ Chat.is_exit (lit "EXIT") = true
  /\ Chat.is_exit (lit " exit ") = true
  /\ Chat.is_exit (lit "Exit") = true.
Proof.
  assert (Hiter :
    lower (strip line) = lit "exit"
    <-> Chat.iteration memory (Chat.InLine line) remote
        = Chat.Outcome Chat.Break memory
            [Asked (lit "You: "); Printed Chat.exit_farewell]).
  { rewrite <- is_exit_iff. split; [apply iteration_exit|].
    intros H. destruct (Chat.is_exit line) eqn:Hx; [reflexivity|].
    destruct (Chat.blank line) eqn:Hb.
    - rewrite (iteration_blank memory line remote Hb) in H. discriminate.
    - rewrite (iteration_exchange memory line remote Hx Hb) in H.
      destruct remote as [response|[|e|e]]; discriminate. }
  split; [exact Hiter|]. split; [|split].
  - split.
    + intros H rest. apply loop_break. now apply Hiter.
    + intros H. apply Hiter. specialize (H []). cbn [Chat.loop] in H.
      destruct (Chat.iteration memory (Chat.InLine line) remote)
        as [[| |x] m t]; cbn in H; try discriminate.
      now injection H as -> ->.
  - rewrite <- is_exit_iff. split.
    + intros H. destruct (Chat.is_exit line) eqn:Hx; [now left|right].
      destruct (Chat.blank line) eqn:Hb.
      * rewrite (iteration_blank memory line remote Hb) in H. discriminate.
      * rewrite (iteration_exchange memory line remote Hx Hb) in H.
        destruct remote as [response|[|e|e]]; try discriminate. now split.
    + intros [Hx|[Hb ->]].
      * now rewrite (iteration_exit memory line remote Hx).
      * destruct (Chat.is_exit line) eqn:Hx.
        -- now rewrite (iteration_exit memory line _ Hx).
        -- now rewrite (iteration_exchange memory line _ Hx Hb).
  - repeat split; reflexivity.
Qed.

(** C3.  On a line that is empty or holds only whitespace, an iteration
    invokes the remote model not at all, leaves the memory as it was,
    prints the request for a message and goes on to the next input: the
    loop stays in [awaiting_input]. *)
Theorem C3_blank_input (memory : Chat.history) (line : str)
  (remote : Chat.remote_result) :
  Chat.blank line = true ->
  Chat.iteration memory (Chat.InLine line) remote
  = Chat.Outcome Chat.Continue memory
      [Asked (lit "You: "); Printed Chat.empty_notice]
  /\ Chat.invocations
       (Chat.trace (Chat.iteration memory (Chat.InLine line) remote)) = []
  /\ Chat.memory_of (Chat.iteration memory (Chat.InLine line) remote) = memory
  /\ Chat.loop memory [(Chat.InLine line, remote)]
     = Chat.Run Chat.awaiting_input memory
         [Asked (lit "You: "); Printed Chat.empty_notice]
  /\ (forall rest,
        Chat.loop memory ((Chat.InLine line, remote) :: rest)
        = Chat.Run (Chat.state (Chat.loop memory rest))
            (Chat.final_memory (Chat.loop memory rest))
            ([Asked (lit "You: "); Printed Chat.empty_notice]
             ++ Chat.output (Chat.loop memory rest))).
Proof.
  intros Hb. pose proof (iteration_blank memory line remote Hb) as Hi.
  rewrite Hi. repeat split.
  - now rewrite (loop_continue _ _ _ _ _ _ Hi).
  - intros rest. apply (loop_continue _ _ _ _ _ _ Hi).
Qed.

Lemma C3_witness :
  Chat.blank (lit "   ") = true
  /\ Chat.memory_of
       (Chat.iteration [(Chat.Human, lit "hello"); (Chat.AI, lit "hi")]
          (Chat.InLine (lit "   ")) (Chat.Reply (lit "unused")))
     = [(Chat.Human, lit "hello"); (Chat.AI, lit "hi")].
Proof.
  split; [reflexivity|].
  exact (proj1 (proj2 (proj2
    (C3_blank_input [(Chat.Human, lit "hello"); (Chat.AI, lit "hi")]
       (lit "   ") (Chat.Reply (lit "unused")) eq_refl)))).
Defined.

(** C4.  On a line that, trimmed, is neither empty nor the exit keyword,
    an iteration whose exchange succeeds leaves the memory longer by two
    entries, the user's message and then the reply, after the entries it
    had; an iteration whose exchange raises leaves the memory as it was. *)
Theorem C4_history_growth (memory : Chat.history) (line : str) :
  Chat.blank line = false ->
  Chat.is_exit line = false ->
  (forall response,
     Chat.memory_of
       (Chat.iteration memory (Chat.InLine line) (Chat.Reply response))
     = memory ++ [(Chat.Human, strip line); (Chat.AI, response)]
     /\ length (Chat.memory_of
                  (Chat.iteration memory (Chat.InLine line)
                     (Chat.Reply response)))
        = (length memory + 2)%nat)
  /\ (forall r,
        Chat.memory_of
          (Chat.iteration memory (Chat.InLine line) (Chat.Raises r))
        = memory).
Proof.
  intros Hb Hx. split.
  - intros response. rewrite (iteration_exchange memory line _ Hx Hb).
    cbn [Chat.memory_of]. split; [reflexivity|].
    rewrite length_app. reflexivity.
  - intros r. rewrite (iteration_exchange memory line _ Hx Hb).
    destruct r; reflexivity.
Qed.

Lemma C4_witness :
  Chat.blank (lit "my router is down") = false
  /\ Chat.is_exit (lit "my router is down") = false
  /\ Chat.memory_of
       (Chat.iteration [] (Chat.InLine (lit "my router is down"))
          (Chat.Reply (lit "Try restarting it.")))
     = [ (Chat.Human, lit "my router is down");
         (Chat.AI, lit "Try restarting it.") ]
  /\ Chat.memory_of
       (Chat.iteration [] (Chat.InLine (lit "my router is down"))
          (Chat.Raises (Chat.PyException (lit "Connection error."))))
     = [].
Proof.
  split; [reflexivity|]. split; [reflexivity|].
  destruct (C4_history_growth [] (lit "my router is down") eq_refl eq_refl)
    as [Hok Hfail].
  split.
  - exact (proj1 (Hok (lit "Try restarting it."))).
  - exact (Hfail (Chat.PyException (lit "Connection error."))).
Defined.

(** C5 (amended).  The template has one field, after its fixed text.  On a
    line that, trimmed, is neither empty nor the exit keyword, the remote
    model is invoked once, on the template with the trimmed line (the line
    without its leading and trailing whitespace) in that field; when the
    model replies, the reply is printed after the invocation. *)
Theorem C5_prompt_from_trimmed_input (memory : Chat.history) (line : str)
  (remote : Chat.remote_result) :
  Chat.blank line = false ->
  Chat.is_exit line = false ->
  Chat.prompt = Some [Chat.Text instructions; Chat.Field (lit "input")]
  /\ Chat.input_variables [Chat.Text instructions; Chat.Field (lit "input")]
     = [lit "input"]
  /\ fill_template (strip line) = Some (instructions ++ strip line)
  /\ Chat.invocations
       (Chat.trace (Chat.iteration memory (Chat.InLine line) remote))
     = [instructions ++ strip line]
  /\ (forall response,
        remote = Chat.Reply response ->
        Chat.trace (Chat.iteration memory (Chat.InLine line) remote)
        = [ Asked (lit "You: "); Printed Chat.thinking;
            Invoke (instructions ++ strip line);
            Printed (lit "Support Agent: " ++ response ++ nl) ]).
Proof.
  intros Hb Hx.
  split; [apply prompt_pieces|]. split; [reflexivity|].
  split; [apply fill_template_eq|].
  rewrite (iteration_exchange memory line remote Hx Hb). split.
  - destruct remote as [response|[|e|e]]; reflexivity.
  - intros response ->. reflexivity.
Qed.

Lemma C5_witness :
  Chat.blank (lit " hi ") = false
  /\ Chat.is_exit (lit " hi ") = false
  /\ Chat.invocations
       (Chat.trace (Chat.iteration [] (Chat.InLine (lit " hi "))
                      (Chat.Reply (lit "Hello!"))))
     = [instructions ++ lit "hi"].
Proof.
  split; [reflexivity|]. split; [reflexivity|].
  exact (proj1 (proj2 (proj2 (proj2
    (C5_prompt_from_trimmed_input [] (lit " hi ")
       (Chat.Reply (lit "Hello!")) eq_refl eq_refl))))).
Defined.

(** C5 as stated fails: on the line " hi " the prompt sent is the template
    filled with "hi", which is not the template filled with the line as it
    was read. *)
Lemma C5_counterexample :
  Chat.blank (lit " hi ") = false
  /\ Chat.is_exit (lit " hi ") = false
  /\ fill_template (lit " hi ") = Some (instructions ++ lit " hi ")
  /\ Chat.invocations
       (Chat.trace (Chat.iteration [] (Chat.InLine (lit " hi "))
                      (Chat.Reply (lit "Hello!"))))
     = [instructions ++ lit "hi"]
  /\ Chat.invocations
       (Chat.trace (Chat.iteration [] (Chat.InLine (lit " hi "))
                      (Chat.Reply (lit "Hello!"))))
     <> [instructions ++ lit " hi "].
Proof.
  split; [reflexivity|]. split; [reflexivity|].
  split; [apply fill_template_eq|].
  split; [reflexivity|].
  intros H. apply (f_equal (fun l => map (@length ascii) l)) in H.
  vm_compute in H. discriminate.
Qed.

(** C9.  On a line that, trimmed, is neither empty nor the exit keyword:
    an [Exception] raised by the exchange is caught in the iteration, the
    error line with the exception's text and the advice line are printed,
    the memory is as it was, and the loop goes on to the next input;
    the operator's interrupt, during the exchange or at the input prompt,
    ends the loop at once with the interrupt farewell; and of all the
    raises of the exchange the interrupt alone makes the iteration end the
    loop. *)
Theorem C9_exceptions_caught (memory : Chat.history) (line : str) :
  Chat.blank line = false ->
  Chat.is_exit line = false ->
  (forall e,
     Chat.iteration memory (Chat.InLine line)
       (Chat.Raises (Chat.PyException e))
     = Chat.Outcome Chat.Continue memory
         [ Asked (lit "You: "); Printed Chat.thinking;
           Invoke (instructions ++ strip line);
           Printed (Chat.error_line e); Printed Chat.advice_line ])
  /\ (forall e rest,
        Chat.loop memory
          ((Chat.InLine line, Chat.Raises (Chat.PyException e)) :: rest)
        = Chat.Run (Chat.state (Chat.loop memory rest))
            (Chat.final_memory (Chat.loop memory rest))
            ([ Asked (lit "You: "); Printed Chat.thinking;
               Invoke (instructions ++ strip line);
               Printed (Chat.error_line e); Printed Chat.advice_line ]
             ++ Chat.output (Chat.loop memory rest)))
  /\ (forall rest,
        Chat.loop memory
          ((Chat.InLine line, Chat.Raises Chat.KeyboardInterrupt) :: rest)
        = Chat.Run Chat.terminated memory
            [ Asked (lit "You: "); Printed Chat.thinking;
              Invoke (instructions ++ strip line);
              Printed Chat.interrupt_farewell ])
  /\ (forall remote rest,
        Chat.loop memory
          ((Chat.InRaise Chat.KeyboardInterrupt, remote) :: rest)
        = Chat.Run Chat.terminated memory
            [Asked (lit "You: "); Printed Chat.interrupt_farewell])
  /\ (forall r,
        Chat.ctl (Chat.iteration memory (Chat.InLine line) (Chat.Raises r))
        = Chat.Break
        <-> r = Chat.KeyboardInterrupt).
Proof.
  intros Hb Hx.
  assert (He : forall e,
    Chat.iteration memory (Chat.InLine line)
      (Chat.Raises (Chat.PyException e))
    = Chat.Outcome Chat.Continue memory
        [ Asked (lit "You: "); Printed Chat.thinking;
          Invoke (instructions ++ strip line);
          Printed (Chat.error_line e); Printed Chat.advice_line ]).
  { intros e. now rewrite (iteration_exchange memory line _ Hx Hb). }
  split; [exact He|]. split; [|split; [|split]].
  - intros e rest. apply loop_continue, He.
  - intros rest. apply loop_break.
    now rewrite (iteration_exchange memory line _ Hx Hb).
  - intros remote rest. apply loop_break. reflexivity.
  - intros r. rewrite (iteration_exchange memory line _ Hx Hb).
    destruct r; cbn [Chat.ctl]; split; congruence.
Qed.

Lemma C9_witness :
  Chat.blank (lit "my router is down") = false
  /\ Chat.is_exit (lit "my router is down") = false
  /\ Chat.loop []
       [ (Chat.InLine (lit "my router is down"),
          Chat.Raises (Chat.PyException (lit "Connection error.")));
         (Chat.InLine (lit "exit"), Chat.Reply (lit "unused")) ]
     = Chat.Run Chat.terminated []
         [ Asked (lit "You: "); Printed Chat.thinking;
           Invoke (instructions ++ lit "my router is down");
           Printed (Chat.error_line (lit "Connection error."));
           Printed Chat.advice_line;
           Asked (lit "You: "); Printed Chat.exit_farewell ].
Proof.
  split; [reflexivity|]. split; [reflexivity|].
  destruct (C9_exceptions_caught [] (lit "my router is down")
              eq_refl eq_refl) as (_ & Hloop & _).
  rewrite Hloop. reflexivity.
Defined.

(** ** Further properties of the verifier *)

Section ImportFacts.

Import Verifier.

Lemma attempted_import_lines (e : env) (packages : list (str * str)) :
  attempted_imports (flat_map (import_lines e) packages) = map fst packages.
Proof.
  induction packages as [|[package name] rest IH]; [reflexivity|].
  cbn [flat_map map fst]. unfold import_lines at 1. cbn [fst snd].
  destruct (import_raises e package) as [[m|m|m]|]; cbn; now rewrite IH.
Qed.

Lemma attempted_imports_app (t1 t2 : list event) :
  attempted_imports (t1 ++ t2) = attempted_imports t1 ++ attempted_imports t2.
Proof.
  induction t1 as [|ev t1 IH]; [reflexivity|].
  destruct ev; cbn; now rewrite IH.
Qed.

Lemma attempted_test_imports (e : env) :
  attempted_imports (events (test_imports e))
  = map fst (tried e required_packages).
Proof.
  rewrite test_imports_eq.
  destruct (first_escape e required_packages); unfold events; cbn [snd];
    cbn [attempted_imports];
    rewrite ?attempted_imports_app, attempted_import_lines; cbn;
    now rewrite ?app_nil_r.
Qed.

Lemma events_test_imports (e : env) :
  events (test_imports e)
  = Printed (lit "🔍 Checking Required Packages...")
    :: flat_map (import_lines e) (tried e required_packages)
    ++ (if imports_caught e required_packages then [Printed []] else []).
Proof.
  rewrite test_imports_eq.
  destruct (imports_caught e required_packages) eqn:Hc.
  - now rewrite (first_escape_none e _ Hc).
  - destruct (first_escape_some e _ Hc) as [x ->].
    unfold events. cbn [snd]. now rewrite app_nil_r.
Qed.

(** The lines of the packages whose import is caught. *)
Lemma import_line_caught (e : env) (package name : str) :
  caught (import_raises e package) = true ->
  import_lines e (package, name)
  = [ TryImport package;
      Printed (if importable e package
               then lit "   ✅ " ++ name
               else lit "   ❌ " ++ name ++ lit " (Not installed)") ].
Proof.
  unfold import_lines, importable. cbn [fst snd].
  destruct (import_raises e package) as [[m|m|m]|]; try discriminate;
    reflexivity.
Qed.

Lemma import_line_escape (e : env) (package name : str) (x : raised) :
  import_raises e package = Some x -> caught (Some x) = false ->
  import_lines e (package, name) = [TryImport package].
Proof.
  unfold import_lines. cbn [fst snd]. intros ->.
  destruct x; try discriminate; reflexivity.
Qed.

End ImportFacts.

(** X1.  [test_imports] attempts the required packages in the order of the
    table.  When no import raises anything but [ImportError], all four are
    attempted, whether or not an earlier one failed, and the result is true
    exactly when all four can be imported.  The first import that raises
    something else ends [test_imports] with that raise, and the packages
    after it are not attempted. *)
Theorem test_imports_tries_every_package (e : Verifier.env) :
  (imports_caught e Verifier.required_packages = true ->
   value (Verifier.test_imports e)
   = inr (importable e (lit "langchain")
          && importable e (lit "langchain_openai")
          && importable e (lit "dotenv") && importable e (lit "openai"))
   /\ attempted_imports (events (Verifier.test_imports e))
      = [ lit "langchain"; lit "langchain_openai"; lit "dotenv";
          lit "openai" ])
  /\ (forall before package name after x,
        Verifier.required_packages = before ++ (package, name) :: after ->
        imports_caught e before = true ->
        Verifier.import_raises e package = Some x ->
        caught (Some x) = false ->
        value (Verifier.test_imports e) = inl x
        /\ attempted_imports (events (Verifier.test_imports e))
           = map fst before ++ [package]).
Proof.
  split.
  - intros Hc. rewrite attempted_test_imports, (tried_all e _ Hc).
    rewrite test_imports_eq, (first_escape_none e _ Hc).
    split; [|reflexivity]. unfold value. cbn.
    now rewrite andb_true_r, !andb_assoc.
  - intros before package name after x Hreq Hb Hp Hx.
    destruct (escape_at e before after (package, name) x Hb Hp Hx)
      as [Hf Ht].
    rewrite attempted_test_imports, test_imports_eq, Hreq, Hf, Ht.
    split; [reflexivity|]. now rewrite map_app.
Qed.

Lemma test_imports_tries_every_package_witness :
  imports_caught env_bare Verifier.required_packages = true
  /\ value (Verifier.test_imports env_bare) = inr false
  /\ Verifier.required_packages
     = [ (lit "langchain", lit "LangChain");
         (lit "langchain_openai", lit "LangChain OpenAI");
         (lit "dotenv", lit "Python Dotenv") ]
       ++ (lit "openai", lit "OpenAI SDK") :: []
  /\ Verifier.import_raises env_broken_package (lit "openai")
     = Some (Verifier.OtherException (lit "broken installation"))
  /\ value (Verifier.test_imports env_broken_package)
     = inl (Verifier.OtherException (lit "broken installation")).
Proof.
  split; [reflexivity|]. split.
  - exact (proj1 (proj1 (test_imports_tries_every_package env_bare)
                        eq_refl)).
  - split; [reflexivity|]. split; [reflexivity|].
    exact (proj1 (proj2 (test_imports_tries_every_package
                           env_broken_package)
                    [ (lit "langchain", lit "LangChain");
                      (lit "langchain_openai", lit "LangChain OpenAI");
                      (lit "dotenv", lit "Python Dotenv") ]
                    (lit "openai") (lit "OpenAI SDK") []
                    (Verifier.OtherException (lit "broken installation"))
                    eq_refl eq_refl eq_refl eq_refl)).
Defined.

(** X2.  When no import raises anything but [ImportError], [test_imports]
    reports each required package on a line of its own, by its display
    name: a check mark when the import succeeds, a cross and
    "(Not installed)" when it raises [ImportError]; the report lines come
    in the order of the table, between the opening line and an empty line.
    When an import raises something else, the output stops at that import:
    the packages before it are reported, that package is not, and no empty
    line closes the list. *)
Theorem test_imports_reports_each_package (e : Verifier.env) :
  (imports_caught e Verifier.required_packages = true ->
   events (Verifier.test_imports e)
   = Printed (lit "🔍 Checking Required Packages...")
     :: flat_map
          (fun p =>
             [ TryImport (fst p);
               Printed (if importable e (fst p)
                        then lit "   ✅ " ++ snd p
                        else lit "   ❌ " ++ snd p
                             ++ lit " (Not installed)") ])
          Verifier.required_packages
     ++ [Printed []])
  /\ (forall before package name after x,
        Verifier.required_packages = before ++ (package, name) :: after ->
        imports_caught e before = true ->
        Verifier.import_raises e package = Some x ->
        caught (Some x) = false ->
        events (Verifier.test_imports e)
        = Printed (lit "🔍 Checking Required Packages...")
          :: flat_map
               (fun p =>
                  [ TryImport (fst p);
                    Printed (if importable e (fst p)
                             then lit "   ✅ " ++ snd p
                             else lit "   ❌ " ++ snd p
                                  ++ lit " (Not installed)") ])
               before
          ++ [TryImport package]).
Proof.
  assert (Hlines : forall ps,
    imports_caught e ps = true ->
    flat_map (import_lines e) ps
    = flat_map
        (fun p =>
           [ TryImport (fst p);
             Printed (if importable e (fst p)
                      then lit "   ✅ " ++ snd p
                      else lit "   ❌ " ++ snd p
                           ++ lit " (Not installed)") ])
        ps).
  { unfold imports_caught.
    induction ps as [|[package name] rest IH]; [reflexivity|].
    cbn [forallb flat_map fst snd]. rewrite andb_true_iff.
    intros [Hp Hrest]. now rewrite (import_line_caught e _ _ Hp), IH. }
  split.
  - intros Hc.
    now rewrite events_test_imports, Hc, (tried_all e _ Hc), Hlines.
  - intros before package name after x Hreq Hb Hp Hx.
    destruct (escape_at e before after (package, name) x Hb Hp Hx)
      as [Hf Ht].
    assert (Hc : imports_caught e Verifier.required_packages = false).
    { destruct (imports_caught e Verifier.required_packages) eqn:Hc;
        [|reflexivity].
      apply first_escape_none in Hc. rewrite Hreq in Hc. congruence. }
    rewrite events_test_imports, Hc, app_nil_r. rewrite Hreq, Ht.
    rewrite flat_map_app, (Hlines before Hb). cbn [flat_map].
    now rewrite (import_line_escape e _ _ x Hp Hx), app_nil_r.
Qed.

Lemma test_imports_reports_each_package_witness :
  imports_caught env_bare Verifier.required_packages = true
  /\ In (Printed (lit "   ❌ LangChain OpenAI (Not installed)"))
        (events (Verifier.test_imports env_bare))
  /\ In (Printed (lit "   ✅ Python Dotenv"))
        (events (Verifier.test_imports env_bare)).
Proof.
  split; [reflexivity|].
  rewrite (proj1 (test_imports_reports_each_package env_bare) eq_refl).
  split; vm_compute; repeat (first [left; reflexivity | right]).
Defined.

Section ConnectionFacts.

Import Verifier.

Lemma value_test_imports (e : env) :
  imports_caught e required_packages = true ->
  value (test_imports e)
  = inr (forallb (fun p => importable e (fst p)) required_packages).
Proof. intros Hc. now rewrite test_imports_eq, (first_escape_none e _ Hc). Qed.

Lemma passed_of_filter (results : list (str * bool)) :
  passed_of results = length (filter (fun p => snd p) results).
Proof.
  unfold passed_of.
  induction (filter (fun p => snd p) results) as [|x l IH]; simpl;
    congruence.
Qed.

Lemma passed_le_total (results : list (str * bool)) :
  (passed_of results <= total_of results)%nat
  /\ (passed_of results = total_of results <-> forallb snd results = true).
Proof.
  rewrite passed_of_filter. unfold total_of.
  induction results as [|[name r] rest [IHle IHeq]]; cbn.
  - split; [lia | split; reflexivity].
  - destruct r; cbn.
    + split; [lia|]. rewrite <- IHeq. split; lia.
    + split; [lia|]. split; [intros H; exfalso; lia | discriminate].
Qed.

End ConnectionFacts.

(** X3.  With [langchain_openai] importable and a non-empty credential,
    the connectivity check calls the client constructor exactly once, with
    the model "gpt-3.5-turbo" and that credential; it is never skipped; it
    returns true when the constructor returns and false, with the text of
    the exception on the failure line, when the constructor raises. *)
Theorem connection_check_with_credential (e : Verifier.env) (k : str) :
  Verifier.import_raises e (lit "langchain_openai") = None ->
  Verifier.OPENAI_API_KEY e = Some k ->
  k <> [] ->
  client_calls (events (Verifier.test_api_connection e))
  = [(lit "gpt-3.5-turbo", k)]
  /\ value (Verifier.test_api_connection e)
     = inr (Some match Verifier.ChatOpenAI_error e k with
                 | None => true
                 | Some _ => false
                 end)
  /\ (forall msg,
        Verifier.ChatOpenAI_error e k = Some msg ->
        events (Verifier.test_api_connection e)
        = [ Printed (lit "🔍 Testing OpenAI API Connection...");
            TryImport (lit "langchain_openai");
            CallChatOpenAI (lit "gpt-3.5-turbo") k;
            Printed (lit "   ❌ Connection Failed: " ++ msg ++ nl) ]).
Proof.
  intros Himp Hkey Hne. rewrite test_api_connection_cases, Himp, Hkey.
  destruct k as [|c k]; [congruence|].
  destruct (Verifier.ChatOpenAI_error e (c :: k)) as [m|];
    repeat split; try reflexivity; intros msg [= <-]; reflexivity.
Qed.

Lemma connection_check_with_credential_witness :
  Verifier.import_raises env_bad_key (lit "langchain_openai") = None
  /\ Verifier.OPENAI_API_KEY env_bad_key
     = Some (lit "sk-proj-0123456789abcd")
  /\ lit "sk-proj-0123456789abcd" <> []
  /\ value (Verifier.test_api_connection env_bad_key) = inr (Some false).
Proof.
  split; [reflexivity|]. split; [reflexivity|]. split; [discriminate|].
  destruct (connection_check_with_credential env_bad_key
              (lit "sk-proj-0123456789abcd") eq_refl eq_refl)
    as (_ & Hv & _).
  - discriminate.
  - exact Hv.
Defined.

(** X4.  The connectivity check is skipped exactly when [langchain_openai]
    can be imported and the credential is missing or empty; and the client
    constructor is called exactly when the package can be imported and the
    credential is set.  An import that raises an [Exception], an
    [ImportError] or another, is reported as a failed connection, with the
    exception's text, before the credential is looked at; an import that
    raises something that is not an [Exception] leaves the check by that
    raise, with nothing printed after the opening line. *)
Theorem connection_check_skipped_iff (e : Verifier.env) :
  (value (Verifier.test_api_connection e) = inr None
   <-> importable e (lit "langchain_openai") = true
       /\ truthy (Verifier.OPENAI_API_KEY e) = false)
  /\ (client_calls (events (Verifier.test_api_connection e)) <> []
      <-> importable e (lit "langchain_openai") = true
          /\ truthy (Verifier.OPENAI_API_KEY e) = true)
  /\ (forall msg,
        Verifier.import_raises e (lit "langchain_openai")
        = Some (Verifier.ImportError msg)
        \/ Verifier.import_raises e (lit "langchain_openai")
           = Some (Verifier.OtherException msg) ->
        Verifier.test_api_connection e
        = (inr (Some false),
           [ Printed (lit "🔍 Testing OpenAI API Connection...");
             TryImport (lit "langchain_openai");
             Printed (lit "   ❌ Connection Failed: " ++ msg ++ nl) ]))
  /\ (forall text,
        Verifier.import_raises e (lit "langchain_openai")
        = Some (Verifier.NonException text) ->
        Verifier.test_api_connection e
        = (inl (Verifier.NonException text),
           [ Printed (lit "🔍 Testing OpenAI API Connection...");
             TryImport (lit "langchain_openai") ])).
Proof.
  rewrite test_api_connection_cases. unfold importable.
  destruct (Verifier.import_raises e (lit "langchain_openai"))
    as [[m|m|m]|].
  - cbn. repeat split; try tauto; try discriminate;
      try (intros [H _]; discriminate).
    intros msg [[= <-]|H]; [reflexivity|discriminate].
  - cbn. repeat split; try tauto; try discriminate;
      try (intros [H _]; discriminate).
    intros msg [H|[= <-]]; [discriminate|reflexivity].
  - cbn. repeat split; try tauto; try discriminate;
      try (intros [H _]; discriminate).
    + intros msg [H|H]; discriminate.
    + intros text [= <-]. reflexivity.
  - destruct (Verifier.OPENAI_API_KEY e) as [[|c k]|].
    + cbn. repeat split; try tauto; try discriminate;
        try (intros [_ H]; discriminate).
      intros msg [H|H]; discriminate.
    + destruct (Verifier.ChatOpenAI_error e (c :: k)); cbn;
        repeat split; try tauto; try discriminate;
        try (intros [_ H]; discriminate);
        intros msg [H|H]; discriminate.
    + cbn. repeat split; try tauto; try discriminate;
        try (intros [_ H]; discriminate).
      intros msg [H|H]; discriminate.
Qed.

Lemma connection_check_skipped_iff_witness :
  Verifier.import_raises env_bare (lit "langchain_openai")
  = Some (Verifier.ImportError (lit "No module named 'langchain_openai'"))
  /\ value (Verifier.test_api_connection env_bare) = inr (Some false)
  /\ value (Verifier.test_api_connection env_no_key) = inr None.
Proof.
  split; [reflexivity|]. split.
  - rewrite (proj1 (proj2 (proj2 (connection_check_skipped_iff env_bare)))
               (lit "No module named 'langchain_openai'")
               (or_introl eq_refl)).
    reflexivity.
  - apply (proj1 (connection_check_skipped_iff env_no_key)).
    split; reflexivity.
Defined.

(** X5.  Whenever the checks of [main] return, its summary counts three
    checks or four: three exactly when the connectivity check was skipped.
    The credential check returns true exactly when the credential is set,
    and then the connectivity check is executed and counted.  The number
    passed never exceeds the number counted. *)
Theorem summary_counts_three_or_four (e : Verifier.env)
  (results : list (str * bool)) :
  value (Verifier.run_tests e) = inr results ->
  Verifier.total_of results
  = (if importable e (lit "langchain_openai")
        && negb (truthy (Verifier.OPENAI_API_KEY e))
     then 3 else 4)%nat
  /\ value (Verifier.test_api_key e) = truthy (Verifier.OPENAI_API_KEY e)
  /\ (value (Verifier.test_api_key e) = true ->
      (exists r, value (Verifier.test_api_connection e) = inr (Some r))
      /\ Verifier.total_of results = 4%nat)
  /\ (Verifier.passed_of results <= Verifier.total_of results)%nat.
Proof.
  intros Hr.
  pose proof (proj1 (passed_le_total results)) as Hle.
  split; [|split; [apply value_test_api_key|split; [|exact Hle]]].
  - destruct (run_tests_results e results Hr) as (r2 & r4 & _ & H4 & ->).
    rewrite value_test_api_connection in H4. unfold importable.
    destruct (Verifier.import_raises e (lit "langchain_openai"))
      as [[m|m|m]|]; try discriminate; try (injection H4 as <-; reflexivity).
    destruct (Verifier.OPENAI_API_KEY e) as [[|c k]|];
      injection H4 as <-; reflexivity.
  - destruct (run_tests_results e results Hr) as (r2 & r4 & _ & H4 & ->).
    rewrite value_test_api_key. intros Hk.
    rewrite value_test_api_connection in H4 |- *.
    destruct (Verifier.import_raises e (lit "langchain_openai"))
      as [[m|m|m]|]; try discriminate;
      try (injection H4 as <-; split; [eauto|reflexivity]).
    destruct (Verifier.OPENAI_API_KEY e) as [[|c k]|]; try discriminate.
    injection H4 as <-. split; [eauto|reflexivity].
Qed.

Lemma summary_counts_three_or_four_witness :
  value (Verifier.run_tests env_bad_key)
  = inr [ (lit "Python Version", true); (lit "Dependencies", true);
          (lit "API Key", true); (lit "API Connection", false) ]
  /\ Verifier.total_of
       [ (lit "Python Version", true); (lit "Dependencies", true);
         (lit "API Key", true); (lit "API Connection", false) ] = 4%nat.
Proof.
  split; [reflexivity|].
  destruct (summary_counts_three_or_four env_bad_key _ eq_refl)
    as (_ & _ & H & _).
  exact (proj2 (H eq_refl)).
Defined.

Section SummaryFacts.

Import Verifier.



Lemma events_print_results (results : list (str * bool)) :
  events (print_results results)
  = map (fun p : str * bool => Printed (fst p ++ lit ": "
                           ++ if snd p then lit "✅ PASS"
                              else lit "❌ FAIL"))
        results.
Proof.
  induction results as [|[test_name result] rest IH]; [reflexivity|].
  cbn [print_results map fst snd]. rewrite events_bind, IH. reflexivity.
Qed.

Lemma events_summary (results : list (str * bool)) :
  events (summary results)
  = [ Printed (str_mul (lit "=") 60); Printed (lit "Summary");
      Printed (str_mul (lit "=") 60) ]
    ++ events (print_results results)
    ++ [Printed (total_line (passed_of results) (total_of results))]
    ++ closing_lines (passed_of results =? total_of results)%nat.
Proof.
  unfold summary. rewrite !events_bind. unfold closing_lines.
  destruct (passed_of results =? total_of results)%nat; reflexivity.
Qed.

Lemma all_passed_eqb (results : list (str * bool)) :
  (passed_of results =? total_of results)%nat = forallb snd results.
Proof.
  destruct (passed_le_total results) as [_ Hiff].
  destruct (forallb snd results).
  - apply Nat.eqb_eq. now apply Hiff.
  - apply Nat.eqb_neq. intros H. apply Hiff in H. discriminate.
Qed.

End SummaryFacts.



(** X7.  For any list of results, the number passed is at most the number
    of results, and the two are equal exactly when every result is true.
    The summary prints one row per result, in order, then the totals, then
    the success banner and the run hint when every result is true (also
    when there is no result), and the failure notice otherwise. *)
Theorem summary_of_any_results (results : list (str * bool)) :
  (Verifier.passed_of results <= Verifier.total_of results)%nat
  /\ (Verifier.passed_of results = Verifier.total_of results
      <-> forallb snd results = true)
  /\ events (Verifier.summary results)
     = [ Printed (str_mul (lit "=") 60); Printed (lit "Summary");
         Printed (str_mul (lit "=") 60) ]
       ++ map (fun p : str * bool => Printed (fst p ++ lit ": "
                                 ++ if snd p then lit "✅ PASS"
                                    else lit "❌ FAIL"))
              results
       ++ [Printed (Verifier.total_line (Verifier.passed_of results)
                                        (Verifier.total_of results))]
       ++ closing_lines (forallb snd results).
Proof.
  split; [apply passed_le_total|]. split; [apply passed_le_total|].
  now rewrite events_summary, events_print_results, all_passed_eqb.
Qed.

Section HeaderFacts.

Import Verifier.







End HeaderFacts.



(** X9.  The masked form of a key of length L has length
    max(L, min(8, L) + min(4, L)): the key's own length from 12 characters
    on, and more than that for every shorter non-empty key.  A key of
    exactly 12 characters is shown unchanged. *)
Theorem masked_key_length (k : str) :
  length (Verifier.masked_key k)
  = Nat.max (length k) (Nat.min 8 (length k) + Nat.min 4 (length k))
  /\ (k <> [] -> (length k < 12)%nat ->
      (length k < length (Verifier.masked_key k))%nat)
  /\ (length k = 12%nat -> Verifier.masked_key k = k).
Proof.
  assert (HL : length (Verifier.masked_key k)
               = Nat.max (length k)
                   (Nat.min 8 (length k) + Nat.min 4 (length k))).
  { rewrite masked_key_unfold, !length_app, repeat_length, length_firstn,
      length_skipn. unfold len. lia. }
  split; [exact HL|]. split.
  - intros Hne Hlt. rewrite HL.
    destruct k as [|c k]; [congruence|]. cbn [length] in *. lia.
  - intros H12. rewrite masked_key_unfold. unfold len. rewrite H12.
    cbn [Z.to_nat repeat Nat.sub]. change (Z.to_nat (12 - 12)) with 0%nat.
    cbn [repeat app]. apply firstn_skipn.
Qed.

Lemma masked_key_length_witness :
  length (lit "sk-012345678") = 12%nat
  /\ lit "sk-0123456" <> []
  /\ (length (lit "sk-0123456") < 12)%nat
  /\ Verifier.masked_key (lit "sk-012345678") = lit "sk-012345678"
  /\ (length (lit "sk-0123456")
      < length (Verifier.masked_key (lit "sk-0123456")))%nat.
Proof.
  split; [reflexivity|]. split; [discriminate|]. split; [vm_compute; lia|].
  split.
  - exact (proj2 (proj2 (masked_key_length (lit "sk-012345678"))) eq_refl).
  - apply (proj1 (proj2 (masked_key_length (lit "sk-0123456")))).
    + discriminate.
    + vm_compute; lia.
Defined.

(** ** Further properties of the chat loop *)

Section IterationFacts.

Import Chat.

(** An iteration, case by case. *)
Lemma iteration_cases (memory : history) (i : input_event)
  (remote : remote_result) :
  iteration memory i remote =
  match i with
  | InRaise KeyboardInterrupt =>
      Outcome Break memory [Asked (lit "You: "); Printed interrupt_farewell]
  | InRaise (PyException e) =>
      Outcome Continue memory
        [Asked (lit "You: "); Printed (error_line e); Printed advice_line]
  | InRaise (OtherBaseException e) =>
      Outcome (Propagate (OtherBaseException e)) memory [Asked (lit "You: ")]
  | InLine line =>
      if is_exit line then
        Outcome Break memory [Asked (lit "You: "); Printed exit_farewell]
      else if blank line then
        Outcome Continue memory [Asked (lit "You: "); Printed empty_notice]
      else
        match remote with
        | Reply response =>
            Outcome Continue
              (memory ++ [(Human, strip line); (AI, response)])
              (exchange_prefix (strip line)
               ++ [Printed (reply_line response)])
        | Raises KeyboardInterrupt =>
            Outcome Break memory
              (exchange_prefix (strip line) ++ [Printed interrupt_farewell])
        | Raises (PyException e) =>
            Outcome Continue memory
              (exchange_prefix (strip line)
               ++ [Printed (error_line e); Printed advice_line])
        | Raises (OtherBaseException e) =>
            Outcome (Propagate (OtherBaseException e)) memory
              (exchange_prefix (strip line))
        end
  end.
Proof.
  destruct i as [line|r]; [|apply iteration_input_raise].
  destruct (is_exit line) eqn:Hx; [now apply iteration_exit|].
  destruct (blank line) eqn:Hb; [now apply iteration_blank|].
  now apply iteration_exchange.
Qed.

Lemma invocations_app (t1 t2 : list event) :
  invocations (t1 ++ t2) = invocations t1 ++ invocations t2.
Proof.
  induction t1 as [|ev t1 IH]; [reflexivity|].
  destruct ev; cbn; now rewrite IH.
Qed.

Lemma lstrip_app_nonspace (x : str) (c : ascii) :
  isspace c = false -> lstrip (x ++ [c]) = lstrip x ++ [c].
Proof.
  intros Hc. induction x as [|d x IH]; cbn.
  - now rewrite Hc.
  - destruct (isspace d); [exact IH | reflexivity].
Qed.

Lemma rstrip_cons_nonspace (c : ascii) (t : str) :
  isspace c = false -> rstrip (c :: t) = c :: rstrip t.
Proof.
  intros Hc. unfold rstrip. cbn [rev].
  now rewrite lstrip_app_nonspace, rev_app_distr.
Qed.

Lemma rstrip_idem (s : str) : rstrip (rstrip s) = rstrip s.
Proof. unfold rstrip. now rewrite rev_involutive, lstrip_idem. Qed.

Lemma lstrip_head (s : str) :
  lstrip s = [] \/ exists c t, lstrip s = c :: t /\ isspace c = false.
Proof.
  induction s as [|c s IH]; cbn; [now left|].
  destruct (isspace c) eqn:Hc; [exact IH|]. right. now exists c, s.
Qed.

(** Trimming a trimmed line changes nothing. *)
Lemma strip_idem (s : str) : strip (strip s) = strip s.
Proof.
  unfold strip. destruct (lstrip_head s) as [->|(c & t & -> & Hc)].
  - reflexivity.
  - rewrite (rstrip_cons_nonspace c t Hc). cbn [lstrip]. rewrite Hc.
    now rewrite (rstrip_cons_nonspace c _ Hc), rstrip_idem.
Qed.

Lemma stored_input_strip (line : str) :
  is_exit line = false -> blank line = false -> stored_input (strip line).
Proof.
  intros Hx Hb. unfold stored_input. split; [apply strip_idem|]. split.
  - intros H. apply strip_nil_iff in H. congruence.
  - unfold is_exit in *. now rewrite strip_idem.
Qed.

Local Ltac no_exchange :=
  exists (@nil (str * str)); cbn; rewrite app_nil_r; repeat split; auto.

(** What one iteration does to the memory and how often it invokes the
    model. *)
Lemma iteration_appends (memory : history) (i : input_event)
  (remote : remote_result) :
  exists ps,
    memory_of (iteration memory i remote)
    = memory ++ flat_map exchange_entries ps
    /\ Forall (fun p => stored_input (fst p)) ps
    /\ (length ps
        <= length (invocations (trace (iteration memory i remote))) <= 1)%nat.
Proof.
  rewrite iteration_cases.
  destruct i as [line|[|e|e]]; try solve [no_exchange].
  destruct (is_exit line) eqn:Hx; [solve [no_exchange]|].
  destruct (blank line) eqn:Hb; [solve [no_exchange]|].
  destruct remote as [response|[|e|e]]; try solve [no_exchange].
  exists [(strip line, response)]. cbn. repeat split; auto.
  constructor; [|constructor]. now apply stored_input_strip.
Qed.

Lemma loop_app (memory : history)
  (s1 s2 : list (input_event * remote_result)) :
  loop memory (s1 ++ s2) =
  match state (loop memory s1) with
  | awaiting_input =>
      Run (state (loop (final_memory (loop memory s1)) s2))
          (final_memory (loop (final_memory (loop memory s1)) s2))
          (output (loop memory s1)
           ++ output (loop (final_memory (loop memory s1)) s2))
  | _ => loop memory s1
  end.
Proof.
  revert memory. induction s1 as [|[i remote] s1 IH]; intros memory.
  - cbn. now destruct (loop memory s2).
  - cbn [app loop].
    destruct (iteration memory i remote) as [[| |x] m' t]; cbn; trivial.
    rewrite IH. destruct (state (loop m' s1)) eqn:Hs; cbn;
      rewrite ?Hs, ?app_assoc; reflexivity.
Qed.

End IterationFacts.

Section ControlFacts.

Import Chat.

Lemma reaches_model_split (line : str) :
  reaches_model line = true <-> blank line = false /\ is_exit line = false.
Proof.
  unfold reaches_model. rewrite andb_true_iff, !negb_true_iff. tauto.
Qed.

(** How an iteration is left, read off the step of the script. *)
Lemma ctl_cases (memory : history) (i : input_event) (remote : remote_result) :
  match ctl (iteration memory i remote) with
  | Continue => quits (i, remote) = false /\ escapes (i, remote) = false
  | Break => quits (i, remote) = true
  | Propagate _ => quits (i, remote) = false /\ escapes (i, remote) = true
  end.
Proof.
  rewrite iteration_cases. destruct i as [line|[|e|e]]; cbn; auto.
  unfold reaches_model.
  destruct (is_exit line) eqn:Hx; cbn; [reflexivity|].
  destruct (blank line) eqn:Hb; cbn.
  - destruct remote as [response|[|e|e]]; auto.
  - destruct remote as [response|[|e|e]]; cbn; auto.
Qed.

Lemma loop_state (script : list (input_event * remote_result)) :
  forall memory,
    (state (loop memory script) = awaiting_input
     <-> existsb (fun s => quits s || escapes s) script = false)
    /\ (state (loop memory script) = terminated ->
        existsb quits script = true)
    /\ (forall r, state (loop memory script) = crashed r ->
        existsb escapes script = true).
Proof.
  induction script as [|[i remote] rest IH]; intros memory.
  - cbn. repeat split; discriminate.
  - cbn [loop existsb]. pose proof (ctl_cases memory i remote) as Hc.
    destruct (iteration memory i remote) as [[| |x] m' t]; cbn in Hc |- *.
    + destruct Hc as [-> ->]. cbn [orb]. apply IH.
    + rewrite Hc. cbn [orb]. repeat split; try discriminate; auto.
    + destruct Hc as [-> ->]. cbn [orb]. repeat split; try discriminate; auto.
Qed.

Lemma lower_char_e (a : ascii) :
  Ascii.eqb (lower_char a) "e" = Ascii.eqb a "e" || Ascii.eqb a "E".
Proof.
  destruct a as [b0 b1 b2 b3 b4 b5 b6 b7];
    destruct b0, b1, b2, b3, b4, b5, b6, b7; reflexivity.
Qed.

Lemma lower_char_x (a : ascii) :
  Ascii.eqb (lower_char a) "x" = Ascii.eqb a "x" || Ascii.eqb a "X".
Proof.
  destruct a as [b0 b1 b2 b3 b4 b5 b6 b7];
    destruct b0, b1, b2, b3, b4, b5, b6, b7; reflexivity.
Qed.

Lemma lower_char_i (a : ascii) :
  Ascii.eqb (lower_char a) "i" = Ascii.eqb a "i" || Ascii.eqb a "I".
Proof.
  destruct a as [b0 b1 b2 b3 b4 b5 b6 b7];
    destruct b0, b1, b2, b3, b4, b5, b6, b7; reflexivity.
Qed.

Lemma lower_char_t (a : ascii) :
  Ascii.eqb (lower_char a) "t" = Ascii.eqb a "t" || Ascii.eqb a "T".
Proof.
  destruct a as [b0 b1 b2 b3 b4 b5 b6 b7];
    destruct b0, b1, b2, b3, b4, b5, b6, b7; reflexivity.
Qed.

Lemma lower_is_exit (u : str) :
  str_eqb (lower u) (lit "exit") = exit_spelling u.
Proof.
  destruct u as [|a [|b [|c [|d [|x u]]]]]; try reflexivity;
    change (lit "exit") with ["e"; "x"; "i"; "t"]%char;
    cbn [lower map str_eqb exit_spelling];
    rewrite ?lower_char_e, ?lower_char_x, ?lower_char_i, ?lower_char_t;
    rewrite ?andb_false_r, ?andb_true_r, ?andb_assoc; reflexivity.
Qed.

End ControlFacts.

(** X10.  An iteration never reads the memory back: what it prints, the
    prompt it sends and the way it is left are the same from any memory,
    and the memory it leaves is the one it found followed by what the same
    iteration would leave from an empty memory.  The history reaches the
    chain's inputs under [chat_history], but the template has no such
    field. *)
Theorem iteration_ignores_history (memory : Chat.history)
  (i : Chat.input_event) (remote : Chat.remote_result) :
  Chat.ctl (Chat.iteration memory i remote)
  = Chat.ctl (Chat.iteration [] i remote)
  /\ Chat.trace (Chat.iteration memory i remote)
     = Chat.trace (Chat.iteration [] i remote)
  /\ Chat.memory_of (Chat.iteration memory i remote)
     = memory ++ Chat.memory_of (Chat.iteration [] i remote).
Proof.
  rewrite !iteration_cases. destruct i as [line|[|e|e]]; cbn;
    rewrite ?app_nil_r; auto.
  destruct (Chat.is_exit line); cbn; rewrite ?app_nil_r; auto.
  destruct (Chat.blank line); cbn; rewrite ?app_nil_r; auto.
  destruct remote as [response|[|e|e]]; cbn; rewrite ?app_nil_r; auto.
Qed.

(** X11.  Running the loop over two scripts in a row: if the first leaves
    the loop awaiting input, the second goes on from the memory the first
    left and the outputs follow each other; if the first ended the loop,
    by a farewell or by an uncaught raise, nothing of the second is read. *)
Theorem loop_over_appended_scripts (memory : Chat.history)
  (s1 s2 : list (Chat.input_event * Chat.remote_result)) :
  (Chat.state (Chat.loop memory s1) = Chat.awaiting_input ->
   Chat.loop memory (s1 ++ s2)
   = Chat.Run
       (Chat.state (Chat.loop (Chat.final_memory (Chat.loop memory s1)) s2))
       (Chat.final_memory
          (Chat.loop (Chat.final_memory (Chat.loop memory s1)) s2))
       (Chat.output (Chat.loop memory s1)
        ++ Chat.output
             (Chat.loop (Chat.final_memory (Chat.loop memory s1)) s2)))
  /\ (Chat.state (Chat.loop memory s1) <> Chat.awaiting_input ->
      Chat.loop memory (s1 ++ s2) = Chat.loop memory s1).
Proof.
  rewrite loop_app. split.
  - now intros ->.
  - destruct (Chat.state (Chat.loop memory s1)); congruence.
Qed.

Lemma loop_over_appended_scripts_witness :
  Chat.state (Chat.loop [] [(Chat.InLine (lit "Exit"),
                             Chat.Reply (lit "unused"))])
  <> Chat.awaiting_input
  /\ Chat.state (Chat.loop [] [(Chat.InLine (lit "  "),
                                Chat.Reply (lit "unused"))])
     = Chat.awaiting_input
  /\ Chat.loop []
       ([(Chat.InLine (lit "Exit"), Chat.Reply (lit "unused"))]
        ++ [(Chat.InLine (lit "hello"), Chat.Reply (lit "Hi!"))])
     = Chat.loop [] [(Chat.InLine (lit "Exit"), Chat.Reply (lit "unused"))]
  /\ Chat.final_memory
       (Chat.loop []
          ([(Chat.InLine (lit "  "), Chat.Reply (lit "unused"))]
           ++ [(Chat.InLine (lit "hello"), Chat.Reply (lit "Hi!"))]))
     = [(Chat.Human, lit "hello"); (Chat.AI, lit "Hi!")].
Proof.
  split; [discriminate|]. split; [reflexivity|]. split.
  - apply (proj2 (loop_over_appended_scripts []
                    [(Chat.InLine (lit "Exit"), Chat.Reply (lit "unused"))]
                    [(Chat.InLine (lit "hello"), Chat.Reply (lit "Hi!"))])).
    discriminate.
  - rewrite (proj1 (loop_over_appended_scripts []
                      [(Chat.InLine (lit "  "), Chat.Reply (lit "unused"))]
                      [(Chat.InLine (lit "hello"), Chat.Reply (lit "Hi!"))])
                   eq_refl).
    reflexivity.
Defined.

(** X12.  Over any script the loop only appends to the memory: the final
    memory is the initial one followed by pairs of a user message and the
    reply to it.  Each stored user message is trimmed, not empty and not
    the exit keyword.  There are at most as many pairs as invocations of
    the model, and at most one invocation per step of the script. *)
Theorem history_is_append_only (memory : Chat.history)
  (script : list (Chat.input_event * Chat.remote_result)) :
  exists ps,
    Chat.final_memory (Chat.loop memory script)
    = memory ++ flat_map exchange_entries ps
    /\ Forall (fun p => stored_input (fst p)) ps
    /\ (length ps
        <= length (Chat.invocations (Chat.output (Chat.loop memory script)))
        <= length script)%nat.
Proof.
  revert memory. induction script as [|[i remote] rest IH]; intros memory.
  - exists []. cbn. rewrite app_nil_r. repeat split; auto.
  - cbn [Chat.loop length].
    destruct (iteration_appends memory i remote) as (ps & Hm & Hok & Hn).
    destruct (Chat.iteration memory i remote) as [[| |x] m' t];
      cbn in Hm, Hn |- *.
    + subst m'.
      destruct (IH (memory ++ flat_map exchange_entries ps))
        as (qs & Hm' & Hok' & Hn').
      exists (ps ++ qs). rewrite Hm', flat_map_app, app_assoc.
      split; [reflexivity|]. split; [now apply Forall_app|].
      rewrite invocations_app, !length_app. lia.
    + exists ps. repeat split; auto; lia.
    + exists ps. repeat split; auto; lia.
Qed.

(** X13.  The loop ends only on an exit line, on the operator's interrupt
    or on a raise that neither handler takes: at the end of a script it is
    still awaiting input exactly when no step of the script is one of
    these.  Blank lines, replies and caught exceptions, however many,
    never end it. *)
Theorem loop_ends_only_by_exit_interrupt_or_escape (memory : Chat.history)
  (script : list (Chat.input_event * Chat.remote_result)) :
  (Chat.state (Chat.loop memory script) = Chat.awaiting_input
   <-> existsb (fun s => quits s || escapes s) script = false)
  /\ (Chat.state (Chat.loop memory script) = Chat.terminated ->
      existsb quits script = true)
  /\ (forall r, Chat.state (Chat.loop memory script) = Chat.crashed r ->
      existsb escapes script = true).
Proof. apply loop_state. Qed.

Lemma loop_ends_only_by_exit_interrupt_or_escape_witness :
  Chat.state
    (Chat.loop []
       [ (Chat.InLine (lit "hello"), Chat.Reply (lit "Hi!"));
         (Chat.InLine (lit " EXIT "), Chat.Reply (lit "unused")) ])
  = Chat.terminated
  /\ existsb quits
       [ (Chat.InLine (lit "hello"), Chat.Reply (lit "Hi!"));
         (Chat.InLine (lit " EXIT "), Chat.Reply (lit "unused")) ]
     = true.
Proof.
  split; [reflexivity|].
  exact (proj1 (proj2 (loop_ends_only_by_exit_interrupt_or_escape []
    [ (Chat.InLine (lit "hello"), Chat.Reply (lit "Hi!"));
      (Chat.InLine (lit " EXIT "), Chat.Reply (lit "unused")) ])) eq_refl).
Defined.

(** X14.  An [Exception] raised by [input] itself (the end of the input,
    say) is handled like a failed exchange: the error line and the advice
    on the API key are printed, the model is not invoked, the memory is
    unchanged and the loop asks again.  However often this repeats, the
    loop does not end. *)
Theorem input_exception_reprompts (memory : Chat.history) (e : str)
  (remote : Chat.remote_result) :
  (forall rest,
     Chat.loop memory ((Chat.InRaise (Chat.PyException e), remote) :: rest)
     = Chat.Run (Chat.state (Chat.loop memory rest))
         (Chat.final_memory (Chat.loop memory rest))
         ([ Asked (lit "You: "); Printed (Chat.error_line e);
            Printed Chat.advice_line ]
          ++ Chat.output (Chat.loop memory rest)))
  /\ (forall n,
        Chat.loop memory
          (repeat (Chat.InRaise (Chat.PyException e), remote) n)
        = Chat.Run Chat.awaiting_input memory
            (concat (repeat [ Asked (lit "You: ");
                              Printed (Chat.error_line e);
                              Printed Chat.advice_line ] n))).
Proof.
  assert (Hstep : forall rest,
    Chat.loop memory ((Chat.InRaise (Chat.PyException e), remote) :: rest)
    = Chat.Run (Chat.state (Chat.loop memory rest))
        (Chat.final_memory (Chat.loop memory rest))
        ([ Asked (lit "You: "); Printed (Chat.error_line e);
           Printed Chat.advice_line ]
         ++ Chat.output (Chat.loop memory rest))).
  { intros rest. apply loop_continue. reflexivity. }
  split; [exact Hstep|].
  induction n as [|n IH]; [reflexivity|].
  cbn [repeat concat]. rewrite Hstep, IH. reflexivity.
Qed.

(** X15.  A raise that is neither [KeyboardInterrupt] nor an [Exception]
    is taken by no handler: it leaves [run_chatbot] at once, with no
    diagnostic and no farewell printed, the memory as it was and the rest
    of the script unread, whether it comes from [input] or from the
    exchange. *)
Theorem other_base_exception_escapes (memory : Chat.history) (e : str)
  (rest : list (Chat.input_event * Chat.remote_result)) :
  (forall remote,
     Chat.loop memory
       ((Chat.InRaise (Chat.OtherBaseException e), remote) :: rest)
     = Chat.Run (Chat.crashed (Chat.OtherBaseException e)) memory
         [Asked (lit "You: ")])
  /\ (forall line,
        reaches_model line = true ->
        Chat.loop memory
          ((Chat.InLine line, Chat.Raises (Chat.OtherBaseException e))
           :: rest)
        = Chat.Run (Chat.crashed (Chat.OtherBaseException e)) memory
            [ Asked (lit "You: "); Printed Chat.thinking;
              Invoke (instructions ++ strip line) ]).
Proof.
  split.
  - intros remote. reflexivity.
  - intros line Hr. apply reaches_model_split in Hr as [Hb Hx].
    cbn [Chat.loop]. now rewrite (iteration_exchange memory line _ Hx Hb).
Qed.

Lemma other_base_exception_escapes_witness :
  reaches_model (lit "hello") = true
  /\ Chat.state
       (Chat.loop []
          [ (Chat.InLine (lit "hello"),
             Chat.Raises (Chat.OtherBaseException (lit "SystemExit")));
            (Chat.InLine (lit "exit"), Chat.Reply (lit "unused")) ])
     = Chat.crashed (Chat.OtherBaseException (lit "SystemExit")).
Proof.
  split; [reflexivity|].
  rewrite (proj2 (other_base_exception_escapes [] (lit "SystemExit")
                    [(Chat.InLine (lit "exit"), Chat.Reply (lit "unused"))])
                 (lit "hello") eq_refl).
  reflexivity.
Defined.

(** X16.  A line is an exit line exactly when, trimmed, it is one of the
    sixteen spellings of "exit" in upper and lower case letters: four
    characters, e or E, x or X, i or I, t or T.  No other character is
    lowered to a letter of the keyword. *)
Theorem exit_lines_are_the_sixteen_spellings (line : str) :
  Chat.is_exit line = exit_spelling (strip line).
Proof. unfold Chat.is_exit. apply lower_is_exit. Qed.

(** X17.  An iteration invokes the remote model at most once, and exactly
    on a line that is neither blank nor the exit keyword; the prompt is
    then the instructions followed by the trimmed line.  On an exit line, a
    blank line, or a raise of [input], nothing is sent. *)
Theorem model_invoked_only_on_a_message (memory : Chat.history)
  (i : Chat.input_event) (remote : Chat.remote_result) :
  Chat.invocations (Chat.trace (Chat.iteration memory i remote))
  = match i with
    | Chat.InLine line =>
        if reaches_model line then [instructions ++ strip line] else []
    | Chat.InRaise _ => []
    end.
Proof.
  rewrite iteration_cases. destruct i as [line|[|e|e]]; try reflexivity.
  unfold reaches_model.
  destruct (Chat.is_exit line) eqn:Hx.
  - now rewrite andb_false_r.
  - destruct (Chat.blank line); [reflexivity|].
    destruct remote as [response|[|e|e]]; reflexivity.
Qed.

